(** * vocal-agent-fr-live: the React and Flutter example clients

    A shallow embedding of the client-side session logic of
    [examples/react-client/src/App.jsx] and
    [examples/flutter-client/lib/main.dart]: the PCM16 sample codec, the
    playback queue, the control-message dispatcher, the handshake and the
    connection / capture lifecycle.

    Conventions.
    - Every awaited platform call (fetch, res.json, the WebSocket
      constructor, getUserMedia) is an input of the handler that awaits it:
      the handler receives the outcome the platform produced.
    - [new Date().toLocaleTimeString('fr-FR')] is the [now] argument of every
      handler that logs.
    - React state setters are applied in program order. *)

From Stdlib Require Import ZArith QArith Qabs Bool List Lia.
From Stdlib Require Import Ascii String DecimalString.
From Stdlib Require Init.Byte Strings.Byte.
Import ListNotations.

Close Scope Q_scope.
Local Open Scope string_scope.

(** ** Samples: the numbers of the audio path

    A JavaScript number on the audio path is modelled by its exact value.
    Capture samples come out of a [Float32Array], so they carry at most 24
    significant bits; the products with 32767 and the quotients by 32768
    formed below are computed in binary64 and are therefore exact, which is
    why rationals are a faithful model here. *)
Module Codec.
Local Open Scope Q_scope.

Inductive number :=
| NaN
| PosInfinity
| NegInfinity
| Finite (q : Q).

(** [Math.min(a, b)]: NaN if either argument is NaN. *)
Definition Math_min (a b : number) : number :=
  match a, b with
  | NaN, _ | _, NaN => NaN
  | NegInfinity, _ | _, NegInfinity => NegInfinity
  | PosInfinity, x | x, PosInfinity => x
  | Finite p, Finite q => if Qle_bool p q then Finite p else Finite q
  end.

(** [Math.max(a, b)]: NaN if either argument is NaN. *)
Definition Math_max (a b : number) : number :=
  match a, b with
  | NaN, _ | _, NaN => NaN
  | PosInfinity, _ | _, PosInfinity => PosInfinity
  | NegInfinity, x | x, NegInfinity => x
  | Finite p, Finite q => if Qle_bool p q then Finite q else Finite p
  end.

(** [a * k] for a finite positive constant [k]. *)
Definition times (a : number) (k : Q) : number :=
  match a with
  | Finite q => Finite (q * k)
  | other => other
  end.

(** Truncation toward zero of a rational. *)
Definition truncate (q : Q) : Z := Z.quot (Qnum q) (Z.pos (Qden q)).

(** Reduction of an integer to the signed 16-bit range, modulo 2^16. *)
Definition wrap16 (z : Z) : Z := (z + 32768) mod 65536 - 32768.

(** ECMAScript [ToInt16], the conversion applied by a store into an
    [Int16Array]: NaN and the infinities become 0, a finite value is
    truncated toward zero and reduced modulo 2^16. *)
Definition ToInt16 (v : number) : Z :=
  match v with
  | Finite q => wrap16 (truncate q)
  | _ => 0%Z
  end.

(** App.jsx line 273:
    [int16[i] = Math.max(-1, Math.min(1, float32[i])) * 32767]. *)
Definition clamp (x : number) : number :=
  Math_max (Finite (-1)) (Math_min (Finite 1) x).

Definition encodeSample (x : number) : Z :=
  ToInt16 (times (clamp x) 32767).

(** App.jsx line 239: [float32[i] = int16[i] / 32768]. *)
Definition decodeSample (s : Z) : Q := Qmake s 32768.

(** The loops of lines 272-274 and 238-240 over a whole frame. *)
Definition encodeFrame (float32 : list number) : list Z :=
  map encodeSample float32.

Definition decodeFrame (int16 : list Z) : list Q :=
  map decodeSample int16.

(** The value a finite sample is clamped to. *)
Definition clampQ (q : Q) : Q :=
  if Qle_bool 1 q then 1 else if Qle_bool (-1) q then q else -1.

(** *** ArrayBuffer views

    An [ArrayBuffer] is a list of bytes.  [new Int16Array(buffer)] reads the
    bytes in pairs, least significant byte first, and raises a RangeError
    when the byte length is odd.  [int16.buffer] is the inverse layout. *)
Definition byteZ (b : Byte.byte) : Z := Z.of_N (Byte.to_N b).

Definition Zbyte (z : Z) : Byte.byte :=
  match Byte.of_N (Z.to_N (z mod 256)) with
  | Some b => b
  | None => Byte.x00
  end.

Definition int16_of_pair (lo hi : Byte.byte) : Z :=
  let u := (byteZ lo + 256 * byteZ hi)%Z in
  if (u <? 32768)%Z then u else (u - 65536)%Z.

Fixpoint Int16Array_of_buffer (data : list Byte.byte) : option (list Z) :=
  match data with
  | [] => Some []
  | [_] => None
  | lo :: hi :: rest =>
      match Int16Array_of_buffer rest with
      | Some tl => Some (int16_of_pair lo hi :: tl)
      | None => None
      end
  end.

Fixpoint buffer_of_Int16Array (int16 : list Z) : list Byte.byte :=
  match int16 with
  | [] => []
  | s :: rest =>
      Zbyte (s mod 65536) :: Zbyte ((s mod 65536) / 256)
        :: buffer_of_Int16Array rest
  end.

End Codec.

(** ** Strings

    A JavaScript or Dart string is a sequence of UTF-16 code units.  It is
    held here as the bytes of its UTF-8 encoding; a surrogate that stands
    alone is encoded on three bytes like any other code unit of its range.
    The functions below read such a string one code point at a time. *)
Module Unicode.

Definition byte (c : ascii) : N := N_of_ascii c.

(** White space and line terminators encoded on one byte:
    U+0009 to U+000D and U+0020. *)
Definition space1 (a : ascii) : bool :=
  ((9 <=? byte a) && (byte a <=? 13) || (byte a =? 32))%N.

(** On two bytes: U+00A0, and U+0085 where [nel] is set (Dart counts the
    next-line control as white space, ECMAScript does not). *)
Definition space2 (nel : bool) (a b : ascii) : bool :=
  ((byte a =? 194) && ((byte b =? 160) || nel && (byte b =? 133)))%N.

(** On three bytes: U+1680, U+2000 to U+200A, U+2028, U+2029, U+202F,
    U+205F, U+3000 and U+FEFF. *)
Definition space3 (a b c : ascii) : bool :=
  ((byte a =? 225) && (byte b =? 154) && (byte c =? 128)
   || (byte a =? 226) && (byte b =? 128)
      && ((128 <=? byte c) && (byte c <=? 138)
          || (byte c =? 168) || (byte c =? 169) || (byte c =? 175))
   || (byte a =? 226) && (byte b =? 129) && (byte c =? 159)
   || (byte a =? 227) && (byte b =? 128) && (byte c =? 128)
   || (byte a =? 239) && (byte b =? 187) && (byte c =? 191))%N.

(** Removal of the leading white-space code points. *)
Fixpoint trimStart (nel : bool) (str : string) : string :=
  match str with
  | EmptyString => EmptyString
  | String a rest =>
      if space1 a then trimStart nel rest
      else
        match rest with
        | String b rest2 =>
            if space2 nel a b then trimStart nel rest2
            else
              match rest2 with
              | String c rest3 =>
                  if space3 a b c then trimStart nel rest3 else str
              | EmptyString => str
              end
        | EmptyString => str
        end
  end.

(** Removal of the trailing white-space code points: the string is cut at
    the first position from which only white space follows. *)
Fixpoint trimEnd (nel : bool) (str : string) : string :=
  match str with
  | EmptyString => EmptyString
  | String a rest =>
      match trimStart nel str with
      | EmptyString => EmptyString
      | _ => String a (trimEnd nel rest)
      end
  end.

Definition trim (nel : bool) (str : string) : string :=
  trimEnd nel (trimStart nel str).

(** The number of UTF-16 code units: one per code point encoded on one, two
    or three bytes, two per code point encoded on four. *)
Fixpoint code_units (str : string) : nat :=
  match str with
  | EmptyString => 0
  | String a rest =>
      if (byte a <? 192)%N then S (code_units rest)
      else if (byte a <? 224)%N then
        match rest with
        | String _ tail => S (code_units tail)
        | _ => 1
        end
      else if (byte a <? 240)%N then
        match rest with
        | String _ (String _ tail) => S (code_units tail)
        | _ => 1
        end
      else
        match rest with
        | String _ (String _ (String _ tail)) => S (S (code_units tail))
        | _ => 1
        end
  end.

(** The high surrogate of the code point encoded on the four bytes
    [a b c d], on three bytes. *)
Definition high_surrogate (a b c d : ascii) : string :=
  let cp := ((byte a mod 8) * 262144 + (byte b mod 64) * 4096
             + (byte c mod 64) * 64 + byte d mod 64)%N in
  let hi := (55296 + (cp - 65536) / 1024)%N in
  String (ascii_of_N 237)
    (String (ascii_of_N (128 + (hi / 64) mod 64))
       (String (ascii_of_N (128 + hi mod 64)) EmptyString)).

(** The first [n] UTF-16 code units, as [slice(0, n)] and [substring(0, n)]
    return them; a cut between the two units of a code point keeps its high
    surrogate. *)
Fixpoint take_units (n : nat) (str : string) : string :=
  match n, str with
  | O, _ => EmptyString
  | _, EmptyString => EmptyString
  | S m, String a rest =>
      if (byte a <? 192)%N then String a (take_units m rest)
      else if (byte a <? 224)%N then
        match rest with
        | String b tail => String a (String b (take_units m tail))
        | _ => str
        end
      else if (byte a <? 240)%N then
        match rest with
        | String b (String c tail) =>
            String a (String b (String c (take_units m tail)))
        | _ => str
        end
      else
        match rest with
        | String b (String c (String d tail)) =>
            match m with
            | S k => String a (String b (String c (String d (take_units k tail))))
            | O => high_surrogate a b c d
            end
        | _ => str
        end
  end.

End Unicode.


(** ** The React client, [examples/react-client/src/App.jsx] *)
Module React.

(** *** Platform objects *)

Inductive JsError :=
| RangeError
| NotSupportedError
| InvalidStateError
| TypeError.

Inductive ReadyState := CONNECTING | OPEN | CLOSING | CLOSED.

Definition ReadyState_eqb (a b : ReadyState) : bool :=
  match a, b with
  | CONNECTING, CONNECTING | OPEN, OPEN | CLOSING, CLOSING | CLOSED, CLOSED => true
  | _, _ => false
  end.

(** What [ws.send] is given: the object passed to [JSON.stringify] on the
    text path (line 306), [int16.buffer] on the capture path (line 275). *)
Inductive Payload :=
| JsonFrame (type text : string)
| BinaryFrame (buffer : list Byte.byte).

(** A [WebSocket] object.  [session] is the [data.session_id] captured by
    the closure of its [onopen] handler; [sendCalls] lists every invocation
    of [send] that returned, with the [readyState] it found. *)
Record WebSocket := {
  url : option string;
  readyState : ReadyState;
  session : option string;
  sendCalls : list (ReadyState * Payload);
  closeCalls : nat
}.

(** The object stored in [mediaRecorderRef.current] (line 282):
    [{ stream, ctx, processor, source }]. *)
Record Recorder := {
  processorConnected : bool;
  sourceConnected : bool;
  ctxClosed : bool;
  tracksLive : bool
}.

Record Config := {
  personality : string;
  situation : string;
  voice_id : string;
  tts_engine : string
}.

(** The body of the POST of lines 148-156. *)
Record Request := {
  endpoint : string;
  settings : Config;
  language : string;
  user_id : string
}.

Record LogEntry := {
  time : string;
  type : string;
  message : string
}.

(** An inbound text frame after [JSON.parse]: the fields the dispatcher
    reads.  [None] is an absent field ([undefined]). *)
Module Msg.
Record ControlMessage := {
  type : option string;
  text : option string;
  message : option string
}.
End Msg.

Inductive MessageData :=
| ArrayBuffer (data : list Byte.byte)
| Text (msg : Msg.ControlMessage).

(** Outcome of [await fetch(...)] followed by [await res.json()].
    [JsonRejects] stands for every way the body fails to yield an object
    with readable fields; [reason] is the [err.message] the catch arm gets. *)
Record HandshakeData := {
  session_id : option string;
  websocket_url : option string
}.

Inductive JsonOutcome :=
| JsonRejects (reason : string)
| JsonResolves (data : HandshakeData).

Inductive FetchOutcome :=
| FetchRejects (reason : string)
| FetchResolves (status : nat) (body : JsonOutcome).

(** Outcome of [await navigator.mediaDevices.getUserMedia(...)] and of the
    construction of the audio graph that follows it; [reason] is the
    [err.message] the catch arm of line 285 gets. *)
Inductive MediaOutcome :=
| MediaRejects (reason : string)
| MediaResolves.

(** *** The component: state hooks, refs and the platform objects they
    point to.  [pendingMedia] counts the calls of [startRecording] that are
    suspended at [await getUserMedia] (line 254). *)
Record App := {
  isConnected : bool;
  isRecording : bool;
  sessionId : option string;
  logs : list LogEntry;
  textInput : string;
  config : Config;
  wsRef : option nat;
  mediaRecorderRef : option nat;
  audioContextRef : bool;
  audioQueueRef : list (list Byte.byte);
  sockets : list WebSocket;
  recorders : list Recorder;
  fetches : list Request;
  shifted : list (list Byte.byte);
  started : list (list Q);
  uncaught : list JsError;
  pendingMedia : nat
}.

Definition AGENT_WS_URL := "ws://localhost:8765/ws".
Definition START_SESSION_URL := "http://localhost:8765/start-session".

Definition initial : App := {|
  isConnected := false;
  isRecording := false;
  sessionId := Some "";
  logs := [];
  textInput := "";
  config := {| personality := "Tu es un assistant vocal chaleureux et naturel.";
               situation := "Conversation vocale en temps réel.";
               voice_id := "fr_FR-melo-voice1";
               tts_engine := "melo" |};
  wsRef := None;
  mediaRecorderRef := None;
  audioContextRef := false;
  audioQueueRef := [];
  sockets := [];
  recorders := [];
  fetches := [];
  shifted := [];
  started := [];
  uncaught := [];
  pendingMedia := 0
|}.

Definition set_isConnected v s := Build_App v (isRecording s) (sessionId s) (logs s) (textInput s) (config s) (wsRef s) (mediaRecorderRef s) (audioContextRef s) (audioQueueRef s) (sockets s) (recorders s) (fetches s) (shifted s) (started s) (uncaught s) (pendingMedia s).
Definition set_isRecording v s := Build_App (isConnected s) v (sessionId s) (logs s) (textInput s) (config s) (wsRef s) (mediaRecorderRef s) (audioContextRef s) (audioQueueRef s) (sockets s) (recorders s) (fetches s) (shifted s) (started s) (uncaught s) (pendingMedia s).
Definition set_sessionId v s := Build_App (isConnected s) (isRecording s) v (logs s) (textInput s) (config s) (wsRef s) (mediaRecorderRef s) (audioContextRef s) (audioQueueRef s) (sockets s) (recorders s) (fetches s) (shifted s) (started s) (uncaught s) (pendingMedia s).
Definition set_logs v s := Build_App (isConnected s) (isRecording s) (sessionId s) v (textInput s) (config s) (wsRef s) (mediaRecorderRef s) (audioContextRef s) (audioQueueRef s) (sockets s) (recorders s) (fetches s) (shifted s) (started s) (uncaught s) (pendingMedia s).
Definition set_textInput v s := Build_App (isConnected s) (isRecording s) (sessionId s) (logs s) v (config s) (wsRef s) (mediaRecorderRef s) (audioContextRef s) (audioQueueRef s) (sockets s) (recorders s) (fetches s) (shifted s) (started s) (uncaught s) (pendingMedia s).
Definition set_wsRef v s := Build_App (isConnected s) (isRecording s) (sessionId s) (logs s) (textInput s) (config s) v (mediaRecorderRef s) (audioContextRef s) (audioQueueRef s) (sockets s) (recorders s) (fetches s) (shifted s) (started s) (uncaught s) (pendingMedia s).
Definition set_mediaRecorderRef v s := Build_App (isConnected s) (isRecording s) (sessionId s) (logs s) (textInput s) (config s) (wsRef s) v (audioContextRef s) (audioQueueRef s) (sockets s) (recorders s) (fetches s) (shifted s) (started s) (uncaught s) (pendingMedia s).
Definition set_audioContextRef v s := Build_App (isConnected s) (isRecording s) (sessionId s) (logs s) (textInput s) (config s) (wsRef s) (mediaRecorderRef s) v (audioQueueRef s) (sockets s) (recorders s) (fetches s) (shifted s) (started s) (uncaught s) (pendingMedia s).
Definition set_audioQueueRef v s := Build_App (isConnected s) (isRecording s) (sessionId s) (logs s) (textInput s) (config s) (wsRef s) (mediaRecorderRef s) (audioContextRef s) v (sockets s) (recorders s) (fetches s) (shifted s) (started s) (uncaught s) (pendingMedia s).
Definition set_sockets v s := Build_App (isConnected s) (isRecording s) (sessionId s) (logs s) (textInput s) (config s) (wsRef s) (mediaRecorderRef s) (audioContextRef s) (audioQueueRef s) v (recorders s) (fetches s) (shifted s) (started s) (uncaught s) (pendingMedia s).
Definition set_recorders v s := Build_App (isConnected s) (isRecording s) (sessionId s) (logs s) (textInput s) (config s) (wsRef s) (mediaRecorderRef s) (audioContextRef s) (audioQueueRef s) (sockets s) v (fetches s) (shifted s) (started s) (uncaught s) (pendingMedia s).
Definition set_fetches v s := Build_App (isConnected s) (isRecording s) (sessionId s) (logs s) (textInput s) (config s) (wsRef s) (mediaRecorderRef s) (audioContextRef s) (audioQueueRef s) (sockets s) (recorders s) v (shifted s) (started s) (uncaught s) (pendingMedia s).
Definition set_shifted v s := Build_App (isConnected s) (isRecording s) (sessionId s) (logs s) (textInput s) (config s) (wsRef s) (mediaRecorderRef s) (audioContextRef s) (audioQueueRef s) (sockets s) (recorders s) (fetches s) v (started s) (uncaught s) (pendingMedia s).
Definition set_started v s := Build_App (isConnected s) (isRecording s) (sessionId s) (logs s) (textInput s) (config s) (wsRef s) (mediaRecorderRef s) (audioContextRef s) (audioQueueRef s) (sockets s) (recorders s) (fetches s) (shifted s) v (uncaught s) (pendingMedia s).
Definition set_uncaught v s := Build_App (isConnected s) (isRecording s) (sessionId s) (logs s) (textInput s) (config s) (wsRef s) (mediaRecorderRef s) (audioContextRef s) (audioQueueRef s) (sockets s) (recorders s) (fetches s) (shifted s) (started s) v (pendingMedia s).
Definition set_pendingMedia v s := Build_App (isConnected s) (isRecording s) (sessionId s) (logs s) (textInput s) (config s) (wsRef s) (mediaRecorderRef s) (audioContextRef s) (audioQueueRef s) (sockets s) (recorders s) (fetches s) (shifted s) (started s) (uncaught s) v.

Definition throw (e : JsError) (s : App) : App :=
  set_uncaught (uncaught s ++ [e]) s.

(** *** JavaScript helpers *)

(** Decimal rendering of a status code inside a template literal. *)
Definition decimal (n : nat) : string :=
  NilEmpty.string_of_uint (Nat.to_uint n).

(** A template-literal hole holding a possibly absent string field. *)
Definition interpolate (v : option string) : string :=
  match v with
  | Some str => str
  | None => "undefined"
  end.

(** [array.slice(-n)]: the last [n] elements. *)
Definition slice_last {A} (n : nat) (l : list A) : list A :=
  skipn (List.length l - n) l.

(** [String.prototype.trim]: the white space and line terminators of
    ECMAScript are removed at both ends. *)
Definition trimStart (str : string) : string := Unicode.trimStart false str.

Definition trimEnd (str : string) : string := Unicode.trimEnd false str.

Definition trim (str : string) : string := Unicode.trim false str.

(** [str.slice(0, 8)]: the first eight UTF-16 code units. *)
Definition slice_0_8 (str : string) : string := Unicode.take_units 8 str.

(** Replacement of the object at index [i] of a store. *)
Fixpoint update {A} (i : nat) (f : A -> A) (l : list A) : list A :=
  match l, i with
  | [], _ => []
  | x :: rest, O => f x :: rest
  | x :: rest, S j => x :: update j f rest
  end.

(** *** WebSocket methods *)

Definition set_readyState (r : ReadyState) (ws : WebSocket) : WebSocket :=
  {| url := url ws; readyState := r; session := session ws;
     sendCalls := sendCalls ws; closeCalls := closeCalls ws |}.

(** [ws.close()]: a socket that is connecting or open starts closing, a
    socket that is closing or closed is left as it is. *)
Definition WebSocket_close (ws : WebSocket) : WebSocket :=
  {| url := url ws;
     readyState := match readyState ws with
                   | CONNECTING | OPEN => CLOSING
                   | other => other
                   end;
     session := session ws;
     sendCalls := sendCalls ws;
     closeCalls := S (closeCalls ws) |}.

(** [ws.send(data)]: raises InvalidStateError while connecting; otherwise
    returns, and the data is transmitted only if the socket is open. *)
Definition WebSocket_send (data : Payload) (ws : WebSocket) : option WebSocket :=
  match readyState ws with
  | CONNECTING => None
  | r => Some {| url := url ws; readyState := r; session := session ws;
                 sendCalls := sendCalls ws ++ [(r, data)];
                 closeCalls := closeCalls ws |}
  end.

(** The frames a socket put on the wire. *)
Definition transmitted (ws : WebSocket) : list Payload :=
  map snd (filter (fun c => ReadyState_eqb (fst c) OPEN) (sendCalls ws)).

(** *** Event log, lines 139-142 *)
Definition addLog (now type message : string) (s : App) : App :=
  set_logs (slice_last 100 (logs s)
              ++ [{| time := now; type := type; message := message |}]) s.

(** *** Playback, lines 226-249

    The [while] loop consumes the queue from its head.  A frame of odd byte
    length makes the [Int16Array] constructor raise a RangeError and an empty
    frame makes [createBuffer] raise a NotSupportedError: the loop is left
    with the frame already shifted, and the promise of the async function is
    rejected with nobody awaiting it. *)
Fixpoint drain (queue : list (list Byte.byte)) (s : App) : App :=
  match queue with
  | [] => set_audioQueueRef [] s
  | data :: rest =>
      let s := set_shifted (shifted s ++ [data]) s in
      match Codec.Int16Array_of_buffer data with
      | None => throw RangeError (set_audioQueueRef rest s)
      | Some int16 =>
          let float32 := Codec.decodeFrame int16 in
          match float32 with
          | [] => throw NotSupportedError (set_audioQueueRef rest s)
          | _ => drain rest (set_started (started s ++ [float32]) s)
          end
      end
  end.

Definition playAudioQueue (s : App) : App :=
  let s := if audioContextRef s then s else set_audioContextRef true s in
  drain (audioQueueRef s) s.

(** *** Control-message dispatch, lines 177-199

    A [switch] compares its subject with each [case] label in turn by strict
    equality; an absent [type] equals no label. *)
Definition is_case (subject : option string) (label : string) : bool :=
  match subject with
  | Some v => String.eqb v label
  | None => false
  end.

Definition dispatch (now : string) (msg : Msg.ControlMessage) (s : App) : App :=
  let subject := Msg.type msg in
  if is_case subject "session.created" then
    addLog now "system" "🎙️ Session prête" s
  else if is_case subject "transcription" then
    addLog now "user" ("🗣️ " ++ interpolate (Msg.text msg)) s
  else if is_case subject "response.text" then
    addLog now "agent" ("🤖 " ++ interpolate (Msg.text msg)) s
  else if is_case subject "audio.start" then
    addLog now "audio" "🔊 Audio en cours..." s
  else if is_case subject "audio.end" then
    addLog now "audio" "🔇 Audio terminé" s
  else if is_case subject "error" then
    addLog now "error" ("❌ " ++ interpolate (Msg.message msg)) s
  else
    addLog now "system" ("[" ++ interpolate subject ++ "]") s.

(** *** Socket handlers, lines 166-211.  The platform updates [readyState]
    before it calls [onopen] and [onclose]. *)
Definition onopen (id : nat) (now : string) (s : App) : App :=
  let s := set_sockets (update id (set_readyState OPEN) (sockets s)) s in
  let s := set_isConnected true s in
  match nth_error (sockets s) id with
  | Some {| session := Some sid |} =>
      addLog now "system" ("Connecté — session: " ++ slice_0_8 sid ++ "...") s
  | _ => throw TypeError s
  end.

Definition onmessage (now : string) (data : MessageData) (s : App) : App :=
  match data with
  | ArrayBuffer buffer =>
      playAudioQueue (set_audioQueueRef (audioQueueRef s ++ [buffer]) s)
  | Text msg => dispatch now msg s
  end.

Definition onclose (id : nat) (now : string) (s : App) : App :=
  let s := set_sockets (update id (set_readyState CLOSED) (sockets s)) s in
  addLog now "system" "Déconnecté" (set_isConnected false s).

Definition onerror (now : string) (s : App) : App :=
  addLog now "error" "Erreur WebSocket" s.

(** *** Handshake and connection, lines 145-223 *)

(** [res.ok]: the status is in the range 200-299. *)
Definition ok (status : nat) : bool :=
  Nat.leb 200 status && Nat.leb status 299.

Definition start_session_body (s : App) : Request :=
  {| endpoint := START_SESSION_URL; settings := config s;
     language := "fr-FR"; user_id := "react-user" |}.

(** [connect]: [res] is the outcome of the fetch and of [res.json()],
    [wsError] the message of the exception raised by
    [new WebSocket(data.websocket_url)], if it raises one.  Every failure
    lands in the [catch] arm of line 214. *)
Definition connect (now : string) (res : FetchOutcome)
    (wsError : option string) (s : App) : App :=
  let s := set_fetches (fetches s ++ [start_session_body s]) s in
  let failed reason s := addLog now "error" ("Connexion échouée: " ++ reason) s in
  match res with
  | FetchRejects reason => failed reason s
  | FetchResolves status body =>
      if negb (ok status) then failed ("HTTP " ++ decimal status) s
      else
        match body with
        | JsonRejects reason => failed reason s
        | JsonResolves data =>
            let s := set_sessionId (session_id data) s in
            match wsError with
            | Some reason => failed reason s
            | None =>
                let ws := {| url := websocket_url data;
                             readyState := CONNECTING;
                             session := session_id data;
                             sendCalls := [];
                             closeCalls := 0 |} in
                set_wsRef (Some (List.length (sockets s)))
                  (set_sockets (sockets s ++ [ws]) s)
            end
        end
  end.

Definition disconnect (s : App) : App :=
  let s := match wsRef s with
           | Some id => set_sockets (update id WebSocket_close (sockets s)) s
           | None => s
           end in
  set_isConnected false (set_wsRef None s).

(** [wsRef.current.send(data)]: [None] when [send] raises. *)
Definition send (id : nat) (data : Payload) (s : App) : option App :=
  match nth_error (sockets s) id with
  | Some ws =>
      match WebSocket_send data ws with
      | Some ws' => Some (set_sockets (update id (fun _ => ws') (sockets s)) s)
      | None => None
      end
  | None => None
  end.

(** [wsRef.current?.readyState], the subject of the guard of line 269. *)
Definition current_readyState (s : App) : option ReadyState :=
  match wsRef s with
  | Some id => option_map readyState (nth_error (sockets s) id)
  | None => None
  end.

(** *** Capture, lines 252-301

    [startRecording] is the function from the settlement of [getUserMedia]
    on; nothing is written before the [await]. *)
Definition startRecording (now : string) (media : MediaOutcome) (s : App) : App :=
  match media with
  | MediaRejects reason => addLog now "error" ("Micro inaccessible: " ++ reason) s
  | MediaResolves =>
      let rec := {| processorConnected := true; sourceConnected := true;
                    ctxClosed := false; tracksLive := true |} in
      let id := List.length (recorders s) in
      let s := set_recorders (recorders s ++ [rec]) s in
      let s := set_mediaRecorderRef (Some id) s in
      addLog now "system" "🎤 Enregistrement démarré" (set_isRecording true s)
  end.

Definition onaudioprocess (float32 : list Codec.number) (s : App) : App :=
  match wsRef s with
  | Some id =>
      match nth_error (sockets s) id with
      | Some ws =>
          if ReadyState_eqb (readyState ws) OPEN then
            let int16 := Codec.encodeFrame float32 in
            match send id (BinaryFrame (Codec.buffer_of_Int16Array int16)) s with
            | Some s' => s'
            | None => throw InvalidStateError s
            end
          else s
      | None => s
      end
  | None => s
  end.

Definition release (rec : Recorder) : Recorder :=
  {| processorConnected := false; sourceConnected := false;
     ctxClosed := true; tracksLive := false |}.

Definition stopRecording (now : string) (s : App) : App :=
  let s := match mediaRecorderRef s with
           | Some r =>
               set_mediaRecorderRef None
                 (set_recorders (update r release (recorders s)) s)
           | None => s
           end in
  addLog now "system" "🎤 Enregistrement arrêté" (set_isRecording false s).

(** *** Text input, lines 304-312 *)
Definition sendText (now : string) (s : App) : App :=
  let text := trim (textInput s) in
  match text, wsRef s with
  | EmptyString, _ | _, None => s
  | _, Some id =>
      match send id (JsonFrame "input.text" text) s with
      | None => throw InvalidStateError s
      | Some s => set_textInput "" (addLog now "user" ("📝 " ++ text) s)
      end
  end.

(** *** Unmount cleanup, lines 315-320: [disconnect()] then
    [stopRecording()]. *)
Definition cleanup (now : string) (s : App) : App :=
  stopRecording now (disconnect s).

(** *** The component as a transition system

    User events are those of the rendered controls (lines 346-417): the
    connect button exists only while [isConnected] is false, every other
    control only while it is true.  Platform events obey the WebSocket and
    Web Audio life cycles.  A click on the start button runs
    [startRecording] up to its [await]; the rest of the function runs when
    [getUserMedia] settles, which may be after any number of other events,
    further clicks on the start button included. *)
Inductive Event :=
| ClickConnect (now : string) (res : FetchOutcome) (wsError : option string)
| ClickDisconnect
| ClickStart
| MediaSettles (now : string) (media : MediaOutcome)
| ClickStop (now : string)
| Typing (value : string)
| ClickSend (now : string)
| SocketOpen (id : nat) (now : string)
| SocketMessage (id : nat) (now : string) (data : MessageData)
| SocketError (id : nat) (now : string)
| SocketClose (id : nat) (now : string)
| AudioProcess (rec : nat) (float32 : list Codec.number)
| Unmount (now : string).

Definition socket_in (states : list ReadyState) (id : nat) (s : App) : bool :=
  match nth_error (sockets s) id with
  | Some ws => existsb (ReadyState_eqb (readyState ws)) states
  | None => false
  end.

Definition enabled (e : Event) (s : App) : bool :=
  match e with
  | ClickConnect _ _ _ => negb (isConnected s)
  | ClickDisconnect | Typing _ | ClickSend _ => isConnected s
  | ClickStart => isConnected s && negb (isRecording s)
  | MediaSettles _ _ => Nat.ltb 0 (pendingMedia s)
  | ClickStop _ => isConnected s && isRecording s
  | SocketOpen id _ => socket_in [CONNECTING] id s
  | SocketMessage id _ _ => socket_in [OPEN] id s
  | SocketError id _ | SocketClose id _ => socket_in [CONNECTING; OPEN; CLOSING] id s
  | AudioProcess rec _ =>
      match nth_error (recorders s) rec with
      | Some r => processorConnected r && sourceConnected r && negb (ctxClosed r)
      | None => false
      end
  | Unmount _ => true
  end.

Definition handle (e : Event) (s : App) : App :=
  match e with
  | ClickConnect now res wsError => connect now res wsError s
  | ClickDisconnect => disconnect s
  | ClickStart => set_pendingMedia (S (pendingMedia s)) s
  | MediaSettles now media =>
      startRecording now media (set_pendingMedia (Nat.pred (pendingMedia s)) s)
  | ClickStop now => stopRecording now s
  | Typing value => set_textInput value s
  | ClickSend now => sendText now s
  | SocketOpen id now => onopen id now s
  | SocketMessage _ now data => onmessage now data s
  | SocketError _ now => onerror now s
  | SocketClose id now => onclose id now s
  | AudioProcess _ float32 => onaudioprocess float32 s
  | Unmount now => cleanup now s
  end.

Definition step (s : App) (e : Event) : option App :=
  if enabled e s then Some (handle e s) else None.

Fixpoint run (events : list Event) (s : App) : option App :=
  match events with
  | [] => Some s
  | e :: rest =>
      match step s e with
      | Some s' => run rest s'
      | None => None
      end
  end.

End React.

(** ** The Flutter client, [examples/flutter-client/lib/main.dart] *)
Module Flutter.

Record LogEntry := {
  time : string;
  type : string;
  message : string
}.

(** The fields of the decoded JSON map that [_handleJsonMessage] reads;
    [None] is an absent key, which a Dart map reads as [null]. *)
Module Msg.
Record ControlMessage := {
  type : option string;
  text : option string;
  message : option string
}.
End Msg.

Record Channel := {
  uri : string;
  sinkClosed : bool
}.

(** The errors that reach the [catch] arm of [_connect] from the code of
    the method itself: [_sessionId!] on null, and [substring(0, 8)] on a
    string of fewer than 8 code units, with the length it has. *)
Inductive DartError :=
| NullCheck
| SubstringRange (length : nat).

Inductive DecodeOutcome :=
| DecodeThrows (e : string)
| Decoded (session_id : option string).

Inductive PostOutcome :=
| PostThrows (e : string)
| PostReturns (statusCode : nat) (body : DecodeOutcome).

Record State := {
  _channel : option nat;
  _isConnected : bool;
  _sessionId : option string;
  _logs : list LogEntry;
  channels : list Channel;
  posts : nat
}.

Definition initial : State := {|
  _channel := None; _isConnected := false; _sessionId := None;
  _logs := []; channels := []; posts := 0
|}.

Definition agentBaseUrl := "http://localhost:8765".
Definition wsBaseUrl := "ws://localhost:8765/ws".

Definition set_logs v s := Build_State (_channel s) (_isConnected s) (_sessionId s) v (channels s) (posts s).
Definition set_isConnected v s := Build_State (_channel s) v (_sessionId s) (_logs s) (channels s) (posts s).
Definition set_sessionId v s := Build_State (_channel s) (_isConnected s) v (_logs s) (channels s) (posts s).
Definition set_channel v s := Build_State v (_isConnected s) (_sessionId s) (_logs s) (channels s) (posts s).
Definition set_channels v s := Build_State (_channel s) (_isConnected s) (_sessionId s) (_logs s) v (posts s).
Definition set_posts v s := Build_State (_channel s) (_isConnected s) (_sessionId s) (_logs s) (channels s) v.

(** A string-interpolation hole holding a possibly null string. *)
Definition interpolate (v : option string) : string :=
  match v with
  | Some str => str
  | None => "null"
  end.

(** [_addLog], lines 194-203: append, then drop the oldest entry once the
    list holds more than 100. *)
Definition _addLog (now type message : string) (s : State) : State :=
  let added := (_logs s ++ [{| time := now; type := type; message := message |}])%list in
  set_logs (if Nat.ltb 100 (List.length added) then tl added else added) s.

(** [_handleJsonMessage], lines 151-174: a [switch] on [msg['type']]. *)
Definition is_case (subject : option string) (label : string) : bool :=
  match subject with
  | Some v => String.eqb v label
  | None => false
  end.

Definition _handleJsonMessage (now : string) (msg : Msg.ControlMessage) (s : State) : State :=
  let subject := Msg.type msg in
  if is_case subject "session.created" then
    _addLog now "system" "🎙️ Session prête" s
  else if is_case subject "transcription" then
    _addLog now "user" ("🗣️ " ++ interpolate (Msg.text msg)) s
  else if is_case subject "response.text" then
    _addLog now "agent" ("🤖 " ++ interpolate (Msg.text msg)) s
  else if is_case subject "audio.start" then
    _addLog now "audio" "🔊 Audio en cours..." s
  else if is_case subject "audio.end" then
    _addLog now "audio" "🔇 Audio terminé" s
  else if is_case subject "error" then
    _addLog now "error" ("❌ " ++ interpolate (Msg.message msg)) s
  else
    _addLog now "system" ("[" ++ interpolate subject ++ "]") s.

(** The stream listener of lines 113-122, for the two kinds of frame. *)
Inductive Frame :=
| TextFrame (msg : Msg.ControlMessage)
| BinaryFrame (bytes : list Byte.byte).

Definition onData (now : string) (frame : Frame) (s : State) : State :=
  match frame with
  | TextFrame msg => _handleJsonMessage now msg s
  | BinaryFrame bytes =>
      _addLog now "audio"
        ("🔊 Audio reçu (" ++ React.decimal (List.length bytes) ++ " octets)") s
  end.

Section Connect.

(** The text [$e] of an error raised by the method's own code. *)
Variable toString : DartError -> string.

(** [_connect], lines 84-138.  [post] is the outcome of the awaited POST and
    of [jsonDecode], [channelError] the text of the exception raised while
    the channel is created, if one is. *)
Definition _connect (now : string) (post : PostOutcome)
    (channelError : option string) (s : State) : State :=
  let s := set_posts (S (posts s)) s in
  let failed e s := _addLog now "error" ("Connexion échouée: " ++ e) s in
  match post with
  | PostThrows e => failed e s
  | PostReturns statusCode body =>
      if negb (Nat.eqb statusCode 200) then
        _addLog now "error" ("Erreur HTTP: " ++ React.decimal statusCode) s
      else
        match body with
        | DecodeThrows e => failed e s
        | Decoded session_id =>
            let s := set_sessionId session_id s in
            match channelError with
            | Some e => failed e s
            | None =>
                let ch := {| uri := wsBaseUrl ++ "/" ++ interpolate session_id;
                             sinkClosed := false |} in
                let id := List.length (channels s) in
                let s := set_channel (Some id) (set_channels (channels s ++ [ch]) s) in
                let s := set_isConnected true s in
                match session_id with
                | None => failed (toString NullCheck) s
                | Some sid =>
                    if Nat.ltb (Unicode.code_units sid) 8 then
                      failed (toString (SubstringRange (Unicode.code_units sid))) s
                    else
                      _addLog now "system"
                        ("✅ Connecté — session: "
                           ++ Unicode.take_units 8 sid ++ "...") s
                end
            end
        end
  end.

End Connect.

End Flutter.

(** ** The log-category table of the specification *)
Module Spec.

(** The fixed mapping from message type to log category: session.created to
    system, transcription to user, response.text to agent, audio.start and
    audio.end to audio, error to error, anything else to system. *)
Definition mapped : list (string * string) :=
  [ ("session.created", "system"); ("transcription", "user");
    ("response.text", "agent"); ("audio.start", "audio");
    ("audio.end", "audio"); ("error", "error") ].

Fixpoint lookup (table : list (string * string)) (key : string) : option string :=
  match table with
  | [] => None
  | (k, v) :: rest => if String.eqb key k then Some v else lookup rest key
  end.

Definition category (type : option string) : string :=
  match type with
  | Some t => match lookup mapped t with Some c => c | None => "system" end
  | None => "system"
  end.

Definition in_table (type : option string) : bool :=
  match type with
  | Some t => match lookup mapped t with Some _ => true | None => false end
  | None => false
  end.

(** The members of the ControlMessage taxonomy that the table leaves out. *)
Definition unmapped_taxonomy : list string :=
  [ "response.start"; "response.end"; "session.update"; "input.text";
    "conversation.clear"; "memory.clear"; "ping" ].

(** *** Vocabulary of the playback property *)

(** The binary frames delivered by a sequence of events, in order. *)
Fixpoint arrivals (events : list React.Event) : list (list Byte.byte) :=
  match events with
  | [] => []
  | React.SocketMessage _ _ (React.ArrayBuffer data) :: rest => data :: arrivals rest
  | _ :: rest => arrivals rest
  end.

(** A frame the platform accepts: an even, non-zero number of bytes. *)
Definition playable (data : list Byte.byte) : bool :=
  match Codec.Int16Array_of_buffer data with
  | Some (_ :: _) => true
  | _ => false
  end.

(** The samples handed to the buffer source for a playable frame. *)
Definition samples (data : list Byte.byte) : list Q :=
  match Codec.Int16Array_of_buffer data with
  | Some int16 => Codec.decodeFrame int16
  | None => []
  end.

(** The part of the component the playback path owns. *)
Definition playback (s : React.App) :=
  (React.audioQueueRef s, React.shifted s, React.started s).

End Spec.

(** ** Concrete sessions used to exercise the model *)
Module Scenario.

Definition session_ok : React.FetchOutcome :=
  React.FetchResolves 200
    (React.JsonResolves
       {| React.session_id := Some "abc12345-0000";
          React.websocket_url := Some "ws://localhost:8765/ws/abc12345-0000" |}).

Definition burst : list React.Event :=
  [ React.ClickConnect "10:00:00" session_ok None;
    React.SocketOpen 0 "10:00:01";
    React.SocketMessage 0 "10:00:02" (React.ArrayBuffer [Byte.x01; Byte.x00]);
    React.SocketMessage 0 "10:00:02"
      (React.Text {| React.Msg.type := Some "audio.start";
                     React.Msg.text := None; React.Msg.message := None |});
    React.SocketMessage 0 "10:00:02"
      (React.ArrayBuffer [Byte.xff; Byte.x7f; Byte.x00; Byte.x80]);
    React.SocketMessage 0 "10:00:03" (React.ArrayBuffer [Byte.x02; Byte.x00]) ].

Definition second_session : React.FetchOutcome :=
  React.FetchResolves 200
    (React.JsonResolves
       {| React.session_id := Some "def67890-0000";
          React.websocket_url := Some "ws://localhost:8765/ws/def67890-0000" |}).

(** A session the server closes, then the text handler is invoked. *)
Definition closed_by_peer : React.App :=
  React.onclose 0 "10:00:03"
    (React.set_textInput "Bonjour"
       (React.onopen 0 "10:00:01"
          (React.connect "10:00:00" session_ok None React.initial))).

(** The same through the rendered controls only: the connect button is
    pressed twice before any socket opens, the second socket is closed by
    the peer, the first one opens, and the user sends a text. *)
Definition stale_reference : list React.Event :=
  [ React.ClickConnect "10:00:00" session_ok None;
    React.ClickConnect "10:00:00" second_session None;
    React.SocketClose 1 "10:00:01";
    React.SocketOpen 0 "10:00:02";
    React.Typing "Bonjour";
    React.ClickSend "10:00:03" ].

(** The user disconnects while the microphone is recording. *)
Definition disconnect_while_recording : list React.Event :=
  [ React.ClickConnect "10:00:00" session_ok None;
    React.SocketOpen 0 "10:00:01";
    React.ClickStart;
    React.MediaSettles "10:00:02" React.MediaResolves;
    React.ClickDisconnect ].

(** A handshake answered with 201 Created and a well-formed body. *)
Definition created_201 : React.FetchOutcome :=
  React.FetchResolves 201
    (React.JsonResolves
       {| React.session_id := Some "abc12345-0000";
          React.websocket_url := Some "ws://localhost:8765/ws/abc12345-0000" |}).

(** The user connects, starts recording, and one frame is captured. *)
Definition talking : list React.Event :=
  [ React.ClickConnect "10:00:00" session_ok None;
    React.SocketOpen 0 "10:00:01";
    React.ClickStart;
    React.MediaSettles "10:00:02" React.MediaResolves;
    React.AudioProcess 0 [Codec.Finite (1 # 2); Codec.Finite (-1 # 4)] ].

End Scenario.

(** ** Shape of the reachable states of the React component *)
Module Shape.

(** A ref is null or designates an object of its store. *)
Definition designates {A} (ref : option nat) (store : list A) : bool :=
  match ref with
  | Some i => Nat.ltb i (List.length store)
  | None => true
  end.

Definition refs_valid (s : React.App) : bool :=
  designates (React.wsRef s) (React.sockets s)
  && designates (React.mediaRecorderRef s) (React.recorders s).

(** A capture graph of which some part has not been released. *)
Definition live (rec : React.Recorder) : bool :=
  React.processorConnected rec || React.sourceConnected rec
  || negb (React.ctxClosed rec) || React.tracksLive rec.

(** A [send] of a binary frame that found the socket open. *)
Definition binary_on_open (call : React.ReadyState * React.Payload) : bool :=
  match snd call with
  | React.BinaryFrame _ => React.ReadyState_eqb (fst call) React.OPEN
  | React.JsonFrame _ _ => true
  end.

Definition binary_only_on_open (s : React.App) : bool :=
  forallb (fun ws => forallb binary_on_open (React.sendCalls ws)) (React.sockets s).

(** Errors raised by the playback path for a frame it cannot play. *)
Definition playback_error (data : list Byte.byte) : list React.JsError :=
  match Codec.Int16Array_of_buffer data with
  | None => [React.RangeError]
  | Some [] => [React.NotSupportedError]
  | Some (_ :: _) => []
  end.

(** A text made of white-space code points only. *)
Fixpoint blank (str : string) : bool :=
  match str with
  | EmptyString => true
  | String a rest =>
      if Unicode.space1 a then blank rest
      else
        match rest with
        | String b rest2 =>
            if Unicode.space2 false a b then blank rest2
            else
              match rest2 with
              | String c rest3 =>
                  if Unicode.space3 a b c then blank rest3 else false
              | EmptyString => false
              end
        | EmptyString => false
        end
  end.

(** Everything the playback path does not own. *)
Definition outside_playback (s : React.App) :=
  (React.isConnected s, React.isRecording s, React.sessionId s, React.logs s,
   React.textInput s, React.config s, React.wsRef s, React.mediaRecorderRef s,
   React.sockets s, React.recorders s, React.fetches s).

End Shape.

(** ** The rest of the Flutter screen: text input, teardown and stream
    callbacks, [main.dart] lines 123-147 and 178-190 *)
Module FlutterScreen.

(** The widget state of [Flutter.State] together with the text controller
    and the calls of [sink.add]: the channel, whether its sink had been
    closed by then, and the text of the [input.text] message. *)
Record Screen := {
  core : Flutter.State;
  _textController : string;
  sinkAdds : list (nat * bool * string)
}.

Definition initial : Screen :=
  {| core := Flutter.initial; _textController := ""; sinkAdds := [] |}.

Definition on_core (f : Flutter.State -> Flutter.State) (s : Screen) : Screen :=
  {| core := f (core s); _textController := _textController s;
     sinkAdds := sinkAdds s |}.

Definition close_sink (ch : Flutter.Channel) : Flutter.Channel :=
  {| Flutter.uri := Flutter.uri ch; Flutter.sinkClosed := true |}.

(** [_disconnect], lines 140-147. *)
Definition _disconnect (s : Screen) : Screen :=
  let closed d :=
    match Flutter._channel d with
    | Some id => Flutter.set_channels
                   (React.update id close_sink (Flutter.channels d)) d
    | None => d
    end in
  on_core (fun d => Flutter.set_sessionId None
                      (Flutter.set_isConnected false
                         (Flutter.set_channel None (closed d)))) s.

(** Dart's [trim]: the code points with the White_Space property, which
    include U+0085, and the byte order mark. *)
Definition trim (str : string) : string := Unicode.trim true str.

(** [_sendText], lines 178-190. *)
Definition _sendText (now : string) (s : Screen) : Screen :=
  let text := trim (_textController s) in
  match text, Flutter._channel (core s) with
  | EmptyString, _ | _, None => s
  | _, Some id =>
      let closed := match nth_error (Flutter.channels (core s)) id with
                    | Some ch => Flutter.sinkClosed ch
                    | None => false
                    end in
      {| core := Flutter._addLog now "user" ("📝 " ++ text) (core s);
         _textController := "";
         sinkAdds := sinkAdds s ++ [(id, closed, text)] |}
  end.

(** The [onDone] and [onError] callbacks of lines 123-130. *)
Definition onDone (now : string) (s : Screen) : Screen :=
  on_core (fun d => Flutter._addLog now "system" "Déconnecté"
                      (Flutter.set_isConnected false d)) s.

Definition onError (now error : string) (s : Screen) : Screen :=
  on_core (fun d => Flutter.set_isConnected false
                      (Flutter._addLog now "error" ("Erreur: " ++ error) d)) s.

Inductive Event :=
| PressConnect (now : string) (post : Flutter.PostOutcome) (channelError : option string)
| PressSend (now : string)
| PressQuit
| Edit (value : string)
| StreamData (now : string) (frame : Flutter.Frame)
| StreamDone (now : string)
| StreamError (now error : string).

Section Handle.

Variable toString : Flutter.DartError -> string.

Definition handle (e : Event) (s : Screen) : Screen :=
  match e with
  | PressConnect now post channelError =>
      on_core (Flutter._connect toString now post channelError) s
  | PressSend now => _sendText now s
  | PressQuit => _disconnect s
  | Edit value => {| core := core s; _textController := value;
                     sinkAdds := sinkAdds s |}
  | StreamData now frame => on_core (Flutter.onData now frame) s
  | StreamDone now => onDone now s
  | StreamError now error => onError now error s
  end.

Definition play (events : list Event) (s : Screen) : Screen :=
  fold_left (fun s e => handle e s) events s.

End Handle.

(** The current channel, if any, exists and its sink is open. *)
Definition channel_open (s : Screen) : bool :=
  match Flutter._channel (core s) with
  | Some id =>
      match nth_error (Flutter.channels (core s)) id with
      | Some ch => negb (Flutter.sinkClosed ch)
      | None => false
      end
  | None => true
  end.

End FlutterScreen.

Module FlutterScenario.

(** A Flutter session: connect, type, send. *)
Definition flutter_chat : list FlutterScreen.Event :=
  [ FlutterScreen.PressConnect "10:00"
      (Flutter.PostReturns 200 (Flutter.Decoded (Some "abc12345-0000"))) None;
    FlutterScreen.Edit " Bonjour ";
    FlutterScreen.PressSend "10:01" ].

End FlutterScenario.

(** * Properties *)

(** ** Sample codec *)

Lemma clamp_finite q : Codec.clamp (Codec.Finite q) = Codec.Finite (Codec.clampQ q).
Proof.
  unfold Codec.clamp, Codec.clampQ. cbn [Codec.Math_min].
  destruct (Qle_bool 1 q); [reflexivity|].
  cbn [Codec.Math_max]. destruct (Qle_bool (-1) q); reflexivity.
Qed.

Lemma clampQ_range q : (-1 <= Codec.clampQ q <= 1)%Q.
Proof.
  unfold Codec.clampQ.
  destruct (Qle_bool 1 q) eqn:Hhi; [split; discriminate|].
  destruct (Qle_bool (-1) q) eqn:Hlo.
  - apply Qle_bool_iff in Hlo. split; [exact Hlo|].
    apply Qnot_lt_le. intros Hlt. apply Qlt_le_weak, Qle_bool_iff in Hlt.
    congruence.
  - split; discriminate.
Qed.

Lemma clampQ_inside q : (-1 <= q <= 1)%Q -> (Codec.clampQ q == q)%Q.
Proof.
  intros [Hlo Hhi]. unfold Codec.clampQ.
  destruct (Qle_bool 1 q) eqn:H1.
  - apply Qle_bool_iff in H1. apply Qle_antisym; assumption.
  - apply Qle_bool_iff in Hlo. rewrite Hlo. reflexivity.
Qed.

(** Truncation toward zero stays within one unit of its argument, on the
    side of zero. *)
Lemma quot_bounds (n d : Z) :
  (0 < d)%Z ->
  ((0 <= n -> d * (n ÷ d) <= n < d * (n ÷ d) + d)
   /\ (n <= 0 -> d * (n ÷ d) - d < n <= d * (n ÷ d)))%Z.
Proof.
  intros Hd. pose proof (Z.quot_rem' n d) as Hqr. split; intros Hn.
  - pose proof (Z.rem_bound_pos n d Hn Hd). lia.
  - pose proof (Z.rem_bound_pos_neg n d Hd Hn). lia.
Qed.

Lemma wrap16_id z : (-32768 <= z <= 32767)%Z -> Codec.wrap16 z = z.
Proof.
  intros Hz. unfold Codec.wrap16. rewrite Z.mod_small by lia. lia.
Qed.

Lemma wrap16_range z : (-32768 <= Codec.wrap16 z <= 32767)%Z.
Proof.
  unfold Codec.wrap16.
  pose proof (Z.mod_pos_bound (z + 32768) 65536 eq_refl). lia.
Qed.

(** The scaled value of a clamped sample truncates to an integer of
    magnitude at most 32767, less than 2/32768 away after decoding. *)
Lemma scaled_truncation c :
  (-1 <= c <= 1)%Q ->
  (-32767 <= Codec.truncate (c * 32767) <= 32767)%Z
  /\ (Qabs (Codec.decodeSample (Codec.truncate (c * 32767)) - c) < 2 # 32768)%Q.
Proof.
  destruct c as [n d]. intros [Hlo Hhi].
  unfold Qle in Hlo, Hhi. cbn in Hlo, Hhi.
  unfold Codec.truncate, Codec.decodeSample. cbn [Qmult Qnum Qden].
  rewrite Pos.mul_1_r.
  pose proof (quot_bounds (n * 32767) (Z.pos d) eq_refl) as [Hpos Hneg].
  set (t := ((n * 32767) ÷ Z.pos d)%Z) in *.
  assert (Hd : (0 < Z.pos d)%Z) by reflexivity.
  split.
  - assert (Hcases : (0 <= n \/ n <= 0)%Z) by lia.
    destruct Hcases as [Hn|Hn].
    + specialize (Hpos ltac:(lia)). nia.
    + specialize (Hneg ltac:(lia)). nia.
  - apply Qabs_Qlt_condition.
    unfold Qlt, Qminus, Qplus, Qopp. cbn [Qnum Qden].
    rewrite !Pos2Z.inj_mul.
    assert (Hcases : (0 <= n \/ n <= 0)%Z) by lia.
    destruct Hcases as [Hn|Hn].
    + specialize (Hpos ltac:(lia)). split; nia.
    + specialize (Hneg ltac:(lia)). split; nia.
Qed.

Lemma encode_finite q :
  Codec.encodeSample (Codec.Finite q) = Codec.truncate (Codec.clampQ q * 32767).
Proof.
  unfold Codec.encodeSample. rewrite clamp_finite. cbn [Codec.times Codec.ToInt16].
  apply wrap16_id.
  pose proof (scaled_truncation _ (clampQ_range q)) as [Ht _]. lia.
Qed.

(** C4. Every input sample, finite or not, is clamped to [-1,1] (or stays
    NaN) before it is scaled by 32767, so the stored integer is the
    truncation of a value of magnitude at most 32767 and the store into the
    Int16Array never wraps; NaN is stored as 0. *)
Theorem encode_never_overflows :
  forall x : Codec.number,
    ((exists c, Codec.clamp x = Codec.Finite c /\ (-1 <= c <= 1)%Q
                /\ Codec.encodeSample x = Codec.truncate (c * 32767))
     \/ (x = Codec.NaN /\ Codec.clamp x = Codec.NaN
         /\ Codec.encodeSample x = 0%Z))
    /\ (-32767 <= Codec.encodeSample x <= 32767)%Z
    /\ (-32768 <= Codec.encodeSample x <= 32767)%Z.
Proof.
  assert (Hfin : forall q,
             (exists c, Codec.clamp (Codec.Finite q) = Codec.Finite c
                        /\ (-1 <= c <= 1)%Q
                        /\ Codec.encodeSample (Codec.Finite q)
                           = Codec.truncate (c * 32767))
             /\ (-32767 <= Codec.encodeSample (Codec.Finite q) <= 32767)%Z).
  { intros q. split.
    - exists (Codec.clampQ q).
      split; [apply clamp_finite | split; [apply clampQ_range | apply encode_finite]].
    - rewrite encode_finite. apply scaled_truncation, clampQ_range. }
  intros [| | |q].
  - split; [right; repeat split | cbn; lia].
  - destruct (Hfin 1%Q) as [Hc Hr]. split; [left; exact Hc | cbn; lia].
  - destruct (Hfin (-1)%Q) as [Hc Hr]. split; [left; exact Hc | cbn; lia].
  - destruct (Hfin q) as [Hc Hr]. split; [left; exact Hc | lia].
Qed.

(** C3, as the code has it. For every finite sample, decoding the encoded
    sample lands strictly less than 2/32768 away from the clamped input, so
    for every sample within [-1,1] the round trip error is below 2/32768:
    truncation after scaling by 32767 costs up to one step and decoding by
    32768 instead of 32767 up to another. *)
Theorem roundtrip_error_bound :
  forall q : Q,
    (Qabs (Codec.decodeSample (Codec.encodeSample (Codec.Finite q))
           - Codec.clampQ q) < 2 # 32768)%Q
    /\ ((-1 <= q <= 1)%Q ->
        (Qabs (Codec.decodeSample (Codec.encodeSample (Codec.Finite q)) - q)
         < 2 # 32768)%Q).
Proof.
  intros q. rewrite encode_finite.
  pose proof (scaled_truncation _ (clampQ_range q)) as [_ Hclose].
  split; [exact Hclose|].
  intros Hin. rewrite <- (clampQ_inside q Hin) at 2. exact Hclose.
Qed.

Lemma roundtrip_error_bound_witness :
  (-1 <= 58983 # 65536 <= 1)%Q
  /\ (Qabs (Codec.decodeSample (Codec.encodeSample (Codec.Finite (58983 # 65536)))
            - (58983 # 65536)) < 2 # 32768)%Q.
Proof.
  assert (Hin : (-1 <= 58983 # 65536 <= 1)%Q) by (split; discriminate).
  split; [exact Hin | apply (roundtrip_error_bound (58983 # 65536)); exact Hin].
Defined.

(** C3, as stated, fails: the sample 58983/65536 (about 0.90001, a binary32
    value) is encoded as 29490 and decoded as 29490/32768, which is
    1.5/32768 away from it. *)
Lemma roundtrip_quantum_counterexample :
  (-1 <= 58983 # 65536 <= 1)%Q
  /\ Codec.encodeSample (Codec.Finite (58983 # 65536)) = 29490%Z
  /\ ~ (Qabs (Codec.decodeSample (Codec.encodeSample (Codec.Finite (58983 # 65536)))
              - (58983 # 65536)) <= 1 # 32768)%Q.
Proof.
  split; [split; discriminate|].
  split; [reflexivity|].
  intros Hle. vm_compute in Hle. apply Hle. reflexivity.
Qed.

(** ** Dispatcher *)

Lemma react_dispatch_entry now msg s :
  exists text,
    React.dispatch now msg s
      = React.addLog now (Spec.category (React.Msg.type msg)) text s
    /\ (Spec.in_table (React.Msg.type msg) = false ->
        text = "[" ++ React.interpolate (React.Msg.type msg) ++ "]").
Proof.
  unfold React.dispatch, Spec.category, Spec.in_table.
  destruct (React.Msg.type msg) as [t|]; cbn [React.is_case].
  2: { eexists; split; [reflexivity | intros _; reflexivity]. }
  cbn [Spec.lookup Spec.mapped].
  repeat (destruct (String.eqb t _);
          [ eexists; split; [reflexivity | discriminate] | ]).
  eexists; split; [reflexivity | intros _; reflexivity].
Qed.

Lemma flutter_dispatch_entry now msg s :
  exists text,
    Flutter._handleJsonMessage now msg s
      = Flutter._addLog now (Spec.category (Flutter.Msg.type msg)) text s
    /\ (Spec.in_table (Flutter.Msg.type msg) = false ->
        text = "[" ++ Flutter.interpolate (Flutter.Msg.type msg) ++ "]").
Proof.
  unfold Flutter._handleJsonMessage, Spec.category, Spec.in_table.
  destruct (Flutter.Msg.type msg) as [t|]; cbn [Flutter.is_case].
  2: { eexists; split; [reflexivity | intros _; reflexivity]. }
  cbn [Spec.lookup Spec.mapped].
  repeat (destruct (String.eqb t _);
          [ eexists; split; [reflexivity | discriminate] | ]).
  eexists; split; [reflexivity | intros _; reflexivity].
Qed.

(** C2. For every inbound control message, in both clients, the dispatcher
    adds exactly one log entry whose category is the one the table gives for
    the message type: session.created to system, transcription to user,
    response.text to agent, audio.start and audio.end to audio, error to
    error, anything else to system.  For a type outside the table the message
    of the entry is the raw type between brackets.  The dispatcher is total
    and records no uncaught error. *)
Theorem dispatch_category_table :
  forall now (msg : React.Msg.ControlMessage) (dmsg : Flutter.Msg.ControlMessage)
         (s : React.App) (d : Flutter.State),
    (exists text,
        React.onmessage now (React.Text msg) s
          = React.addLog now (Spec.category (React.Msg.type msg)) text s
        /\ (Spec.in_table (React.Msg.type msg) = false ->
            text = "[" ++ React.interpolate (React.Msg.type msg) ++ "]"))
    /\ React.uncaught (React.onmessage now (React.Text msg) s) = React.uncaught s
    /\ (exists text,
        Flutter.onData now (Flutter.TextFrame dmsg) d
          = Flutter._addLog now (Spec.category (Flutter.Msg.type dmsg)) text d
        /\ (Spec.in_table (Flutter.Msg.type dmsg) = false ->
            text = "[" ++ Flutter.interpolate (Flutter.Msg.type dmsg) ++ "]")).
Proof.
  intros now msg dmsg s d.
  destruct (react_dispatch_entry now msg s) as [text [E T]].
  split; [| split].
  - exists text. split; [exact E | exact T].
  - cbn [React.onmessage]. rewrite E. reflexivity.
  - apply flutter_dispatch_entry.
Qed.

(** ** Playback queue *)

Lemma drain_one data s :
  Spec.playback (React.drain [data] s)
  = ([], React.shifted s ++ [data],
     React.started s ++ (if Spec.playable data then [Spec.samples data] else []))%list.
Proof.
  unfold Spec.playback, Spec.playable, Spec.samples. cbn [React.drain].
  destruct (Codec.Int16Array_of_buffer data) as [[|z int16]|]; cbn;
    rewrite ?app_nil_r; reflexivity.
Qed.

Lemma drain_playable queue : forall s,
  forallb Spec.playable queue = true ->
  Spec.playback (React.drain queue s)
  = ([], React.shifted s ++ queue, React.started s ++ map Spec.samples queue)%list.
Proof.
  induction queue as [|data rest IH]; intros s Hall.
  - unfold Spec.playback. cbn. rewrite !app_nil_r. reflexivity.
  - cbn [forallb] in Hall. apply andb_prop in Hall as [Hd Hrest].
    cbn [React.drain]. unfold Spec.playable in Hd.
    unfold Spec.samples at 1. cbn [map].
    destruct (Codec.Int16Array_of_buffer data) as [[|z int16]|];
      try discriminate.
    cbn [Codec.decodeFrame map]. rewrite IH by exact Hrest. cbn.
    rewrite <- !app_assoc. reflexivity.
Qed.

Lemma playAudioQueue_playback s :
  Spec.playback (React.playAudioQueue s)
  = Spec.playback (React.drain (React.audioQueueRef s) s).
Proof.
  unfold React.playAudioQueue. destruct (React.audioContextRef s); [reflexivity|].
  cbn [React.audioQueueRef React.set_audioContextRef].
  generalize (React.audioQueueRef s) as queue. intros queue. revert s.
  induction queue as [|data rest IH]; intros s; [reflexivity|].
  cbn [React.drain].
  destruct (Codec.Int16Array_of_buffer data) as [[|z int16]|]; try reflexivity.
  cbn [Codec.decodeFrame map].
  exact (IH (React.set_started _ (React.set_shifted _ s))).
Qed.

Ltac split_matches :=
  repeat match goal with
         | |- context [match ?x with _ => _ end] => destruct x
         | |- context [if ?b then _ else _] => destruct b
         end.

Lemma addLog_playback now type message s :
  Spec.playback (React.addLog now type message s) = Spec.playback s.
Proof. reflexivity. Qed.


Lemma send_playback id data s s' :
  React.send id data s = Some s' -> Spec.playback s' = Spec.playback s.
Proof.
  unfold React.send. intros H.
  destruct (nth_error (React.sockets s) id) as [ws|]; [|discriminate].
  destruct (React.WebSocket_send data ws); [|discriminate].
  injection H as <-. reflexivity.
Qed.

Lemma sendText_playback now s :
  Spec.playback (React.sendText now s) = Spec.playback s.
Proof.
  unfold React.sendText.
  destruct (React.trim (React.textInput s)) as [|c text]; [reflexivity|].
  destruct (React.wsRef s) as [id|]; [|reflexivity].
  destruct (React.send id _ s) as [s'|] eqn:Hsend; [|reflexivity].
  apply send_playback in Hsend. rewrite <- Hsend. reflexivity.
Qed.

Lemma onaudioprocess_playback float32 s :
  Spec.playback (React.onaudioprocess float32 s) = Spec.playback s.
Proof.
  unfold React.onaudioprocess.
  destruct (React.wsRef s) as [id|]; [|reflexivity].
  destruct (nth_error (React.sockets s) id) as [ws|]; [|reflexivity].
  destruct (React.ReadyState_eqb (React.readyState ws) React.OPEN); [|reflexivity].
  destruct (React.send id _ s) as [s'|] eqn:Hsend; [|reflexivity].
  apply send_playback in Hsend. exact Hsend.
Qed.

Lemma other_events_playback e s :
  (forall id now data, e <> React.SocketMessage id now (React.ArrayBuffer data)) ->
  Spec.playback (React.handle e s) = Spec.playback s.
Proof.
  intros Hnot.
  destruct e as [now res wsError| | |now media|now|value|now|id now|id now data
                |id now|id now|rec float32|now];
    cbn [React.handle];
    try apply sendText_playback; try apply onaudioprocess_playback;
    try (unfold React.connect, React.disconnect, React.startRecording,
           React.stopRecording, React.onopen, React.onerror,
           React.onclose, React.cleanup, React.stopRecording,
           React.disconnect, React.throw;
         split_matches; reflexivity).
  destruct data as [data|msg].
  - exfalso. exact (Hnot _ _ _ eq_refl).
  - cbn [React.onmessage]. unfold React.dispatch. split_matches; reflexivity.
Qed.
Lemma arrival_playback now data s :
  React.audioQueueRef s = [] ->
  Spec.playback (React.onmessage now (React.ArrayBuffer data) s)
  = ([], React.shifted s ++ [data],
     React.started s ++ (if Spec.playable data then [Spec.samples data] else []))%list.
Proof.
  intros Hempty. cbn [React.onmessage].
  rewrite playAudioQueue_playback.
  cbn [React.audioQueueRef React.set_audioQueueRef]. rewrite Hempty.
  cbn [app]. rewrite drain_one. reflexivity.
Qed.

Lemma run_playback events : forall s s',
  React.audioQueueRef s = [] ->
  React.run events s = Some s' ->
  Spec.playback s'
  = ([], React.shifted s ++ Spec.arrivals events,
     React.started s
       ++ map Spec.samples (filter Spec.playable (Spec.arrivals events)))%list.
Proof.
  induction events as [|e rest IH]; intros s s' Hempty Hrun.
  - cbn in Hrun. injection Hrun as <-. unfold Spec.playback.
    cbn. rewrite Hempty, !app_nil_r. reflexivity.
  - cbn [React.run] in Hrun. unfold React.step in Hrun.
    destruct (React.enabled e s); [|discriminate].
    assert (Hdec : (exists id now data,
                      e = React.SocketMessage id now (React.ArrayBuffer data))
                   \/ (forall id now data,
                      e <> React.SocketMessage id now (React.ArrayBuffer data))).
    { destruct e; try (right; intros; discriminate).
      destruct data; [left; eauto | right; intros; discriminate]. }
    destruct Hdec as [(id & now & data & ->) | Hother].
    + pose proof (arrival_playback now data s Hempty) as Hstep.
      cbn [React.handle] in Hrun.
      unfold Spec.playback in Hstep. injection Hstep as Hq Hsh Hst.
      rewrite (IH _ _ Hq Hrun), Hsh, Hst. cbn [Spec.arrivals filter].
      rewrite <- !app_assoc.
      destruct (Spec.playable data); reflexivity.
    + pose proof (other_events_playback e s Hother) as Hstep.
      unfold Spec.playback in Hstep. injection Hstep as Hq Hsh Hst.
      rewrite Hempty in Hq.
      rewrite (IH _ _ Hq Hrun), Hsh, Hst.
      replace (Spec.arrivals (e :: rest)) with (Spec.arrivals rest); [reflexivity|].
      destruct e; try reflexivity.
      destruct data; [exfalso; exact (Hother _ _ _ eq_refl) | reflexivity].
Qed.

(** C1. Whatever events the component goes through, the frames taken off the
    playback queue are exactly the binary frames that arrived, in arrival
    order; the queue is empty after every event, so the drain started by an
    arrival leaves no frame behind; the buffers started are those of the
    playable frames in the same order, and all of them when every frame is
    playable. *)
Theorem playback_fifo :
  forall events s,
    React.run events React.initial = Some s ->
    React.shifted s = Spec.arrivals events
    /\ React.audioQueueRef s = []
    /\ React.started s
       = map Spec.samples (filter Spec.playable (Spec.arrivals events))
    /\ (forallb Spec.playable (Spec.arrivals events) = true ->
        React.started s = map Spec.samples (Spec.arrivals events)).
Proof.
  intros events s Hrun.
  pose proof (run_playback events React.initial s eq_refl Hrun) as H.
  unfold Spec.playback in H. cbn [React.initial React.shifted React.started app] in H.
  injection H as Hq Hsh Hst.
  repeat split; try assumption.
  intros Hall. rewrite Hst. f_equal.
  clear - Hall. induction (Spec.arrivals events) as [|f fs IH]; [reflexivity|].
  cbn [forallb] in Hall. apply andb_prop in Hall as [Hf Hfs].
  cbn [filter]. rewrite Hf, (IH Hfs). reflexivity.
Qed.

Lemma playback_fifo_witness :
  exists s,
    React.run Scenario.burst React.initial = Some s
    /\ React.shifted s
       = [ [Byte.x01; Byte.x00]; [Byte.xff; Byte.x7f; Byte.x00; Byte.x80];
           [Byte.x02; Byte.x00] ]
    /\ React.audioQueueRef s = [].
Proof.
  eexists. split; [vm_compute; reflexivity|].
  split; [apply (playback_fifo Scenario.burst); vm_compute; reflexivity
         | apply (playback_fifo Scenario.burst); vm_compute; reflexivity].
Defined.

(** C10. Each taxonomy member missing from the dispatch table
    (response.start, response.end, session.update, input.text,
    conversation.clear, memory.clear, ping) falls to the default arm in both
    clients: the only effect is one system entry whose message is the type
    between brackets. *)
Theorem unmapped_taxonomy_default :
  forall ty,
    In ty Spec.unmapped_taxonomy ->
    forall now text message (s : React.App) (d : Flutter.State),
      React.onmessage now
        (React.Text {| React.Msg.type := Some ty; React.Msg.text := text;
                       React.Msg.message := message |}) s
      = React.set_logs
          (React.slice_last 100 (React.logs s)
             ++ [{| React.time := now; React.type := "system";
                    React.message := "[" ++ ty ++ "]" |}]) s
      /\ Flutter.onData now
           (Flutter.TextFrame {| Flutter.Msg.type := Some ty;
                                 Flutter.Msg.text := text;
                                 Flutter.Msg.message := message |}) d
         = Flutter._addLog now "system" ("[" ++ ty ++ "]") d.
Proof.
  intros ty Hin now text message s d.
  cbn [Spec.unmapped_taxonomy In] in Hin.
  repeat (destruct Hin as [<-|Hin]; [split; reflexivity|]).
  contradiction.
Qed.

Lemma unmapped_taxonomy_default_witness :
  In "ping" Spec.unmapped_taxonomy
  /\ React.logs
       (React.onmessage "10:00:00"
          (React.Text {| React.Msg.type := Some "ping"; React.Msg.text := None;
                         React.Msg.message := None |}) React.initial)
     = [{| React.time := "10:00:00"; React.type := "system";
           React.message := "[ping]" |}].
Proof.
  assert (Hin : In "ping" Spec.unmapped_taxonomy) by (cbn; tauto).
  split; [exact Hin|].
  rewrite (proj1 (unmapped_taxonomy_default "ping" Hin "10:00:00" None None
                    React.initial Flutter.initial)).
  reflexivity.
Defined.

Lemma dispatch_category_table_witness :
  exists text,
    React.onmessage "10:00:00"
      (React.Text {| React.Msg.type := Some "pong"; React.Msg.text := None;
                     React.Msg.message := None |}) React.initial
    = React.addLog "10:00:00" "system" text React.initial
    /\ text = "[pong]".
Proof.
  destruct (dispatch_category_table "10:00:00"
              {| React.Msg.type := Some "pong"; React.Msg.text := None;
                 React.Msg.message := None |}
              {| Flutter.Msg.type := Some "pong"; Flutter.Msg.text := None;
                 Flutter.Msg.message := None |}
              React.initial Flutter.initial) as [[text [E T]] _].
  exists text. split; [exact E | exact (T eq_refl)].
Defined.

(** ** Capture and transport *)

(** C5. While [wsRef.current?.readyState] is anything but OPEN, a captured
    frame leaves the whole component unchanged: nothing is sent, nothing is
    thrown, nothing is kept for later. *)
Theorem capture_frame_dropped :
  forall float32 s,
    React.current_readyState s <> Some React.OPEN ->
    React.onaudioprocess float32 s = s.
Proof.
  intros float32 s Hclosed.
  unfold React.current_readyState in Hclosed. unfold React.onaudioprocess.
  destruct (React.wsRef s) as [id|]; [|reflexivity].
  destruct (nth_error (React.sockets s) id) as [ws|]; [|reflexivity].
  cbn [option_map] in Hclosed.
  destruct (React.readyState ws); cbn [React.ReadyState_eqb];
    try reflexivity.
  contradiction Hclosed. reflexivity.
Qed.

Lemma capture_frame_dropped_witness :
  React.current_readyState Scenario.closed_by_peer <> Some React.OPEN
  /\ React.onaudioprocess [Codec.Finite (1 # 2)] Scenario.closed_by_peer
     = Scenario.closed_by_peer.
Proof.
  assert (H : React.current_readyState Scenario.closed_by_peer <> Some React.OPEN)
    by (vm_compute; discriminate).
  split; [exact H | apply (capture_frame_dropped _ _ H)].
Defined.

Lemma onclose_keeps_reference id now s :
  React.wsRef (React.onclose id now s) = React.wsRef s.
Proof. reflexivity. Qed.

Lemma disconnect_drops_reference s :
  React.wsRef (React.disconnect s) = None.
Proof. unfold React.disconnect. destruct (React.wsRef s); reflexivity. Qed.

Lemma sendText_without_reference now s :
  React.wsRef s = None -> React.sendText now s = s.
Proof.
  intros Hnone. unfold React.sendText. rewrite Hnone.
  destruct (React.trim (React.textInput s)); reflexivity.
Qed.

(** C6, evaluated where the code departs from it. [ws.onclose] leaves
    [wsRef.current] pointing at the closed socket and [sendText] only tests
    the reference for null: after a close by the peer, [sendText] calls
    [send] on the CLOSED socket and logs the text as sent.  The second part
    reaches the same state through the rendered controls alone. *)
Theorem sendText_after_close_calls_send :
  (let s := React.sendText "10:00:04" Scenario.closed_by_peer in
   React.wsRef Scenario.closed_by_peer = Some 0
   /\ React.current_readyState Scenario.closed_by_peer = Some React.CLOSED
   /\ option_map React.sendCalls (nth_error (React.sockets s) 0)
      = Some [(React.CLOSED, React.JsonFrame "input.text" "Bonjour")]
   /\ option_map React.transmitted (nth_error (React.sockets s) 0) = Some []
   /\ map React.message (React.logs s)
      = ["Connecté — session: abc12345..."; "Déconnecté"; "📝 Bonjour"])
  /\ (exists s,
        React.run Scenario.stale_reference React.initial = Some s
        /\ React.wsRef s = Some 1
        /\ option_map React.readyState (nth_error (React.sockets s) 1)
           = Some React.CLOSED
        /\ option_map React.sendCalls (nth_error (React.sockets s) 1)
           = Some [(React.CLOSED, React.JsonFrame "input.text" "Bonjour")]).
Proof.
  split.
  - vm_compute. repeat split.
  - eexists. split; [vm_compute; reflexivity|]. vm_compute. repeat split.
Qed.

(** ** Handshake *)

(** C7, as the code has it. The React client fails the handshake on every
    status outside 200-299 ([res.ok] is false), the Flutter client on every
    status other than 200.  In both the failure is one error entry in the
    log, exactly one request has been issued, and nothing else changes: no
    socket or channel is created and the connection flag and reference are
    as before. *)
Theorem handshake_failure :
  forall now status body wsError toString (s : React.App) (d : Flutter.State),
    (React.ok status = false ->
     let s' := React.connect now (React.FetchResolves status body) wsError s in
     s' = React.addLog now "error"
            ("Connexion échouée: HTTP " ++ React.decimal status)
            (React.set_fetches (React.fetches s ++ [React.start_session_body s]) s)
     /\ React.sockets s' = React.sockets s
     /\ React.wsRef s' = React.wsRef s
     /\ React.isConnected s' = React.isConnected s
     /\ List.length (React.fetches s') = S (List.length (React.fetches s)))
    /\ (forall dbody,
        status <> 200 ->
        let d' := Flutter._connect toString now
                    (Flutter.PostReturns status dbody) wsError d in
        d' = Flutter._addLog now "error"
               ("Erreur HTTP: " ++ React.decimal status)
               (Flutter.set_posts (S (Flutter.posts d)) d)
        /\ Flutter.channels d' = Flutter.channels d
        /\ Flutter._channel d' = Flutter._channel d
        /\ Flutter._isConnected d' = Flutter._isConnected d
        /\ Flutter.posts d' = S (Flutter.posts d)).
Proof.
  intros now status body wsError toString s d. split.
  - intros Hko. cbn zeta. unfold React.connect. rewrite Hko. cbn [negb].
    repeat split. cbn. rewrite length_app. cbn. lia.
  - intros dbody Hne. cbn zeta. unfold Flutter._connect.
    apply Nat.eqb_neq in Hne. rewrite Hne. cbn [negb]. repeat split.
Qed.

Lemma handshake_failure_witness :
  React.ok 404 = false
  /\ 404 <> 200
  /\ map React.message
       (React.logs (React.connect "10:00:00"
                      (React.FetchResolves 404 (React.JsonRejects "Unexpected token"))
                      None React.initial))
     = ["Connexion échouée: HTTP 404"]
  /\ Flutter.channels
       (Flutter._connect (fun _ => "error") "10:00" 
          (Flutter.PostReturns 404 (Flutter.DecodeThrows "FormatException"))
          None Flutter.initial)
     = [].
Proof.
  assert (Hko : React.ok 404 = false) by reflexivity.
  assert (Hne : 404 <> 200) by discriminate.
  pose proof (handshake_failure "10:00:00" 404
                (React.JsonRejects "Unexpected token") None (fun _ => "error")
                React.initial Flutter.initial) as [Hreact _].
  pose proof (handshake_failure "10:00" 404
                (React.JsonRejects "Unexpected token") None (fun _ => "error")
                React.initial Flutter.initial) as [_ Hflutter].
  split; [exact Hko|]. split; [exact Hne|]. split.
  - rewrite (proj1 (Hreact Hko)). reflexivity.
  - rewrite (proj1 (proj2 (Hflutter (Flutter.DecodeThrows "FormatException") Hne))).
    reflexivity.
Defined.

(** C7, as stated, fails in the React client: a 201 response with a
    well-formed body is not a failure there; the socket is created, the
    reference is set and no error is logged. *)
Lemma handshake_201_counterexample :
  201 <> 200
  /\ (let s := React.connect "10:00:00" Scenario.created_201 None React.initial in
      React.wsRef s = Some 0
      /\ option_map React.readyState (nth_error (React.sockets s) 0)
         = Some React.CONNECTING
      /\ React.logs s = []).
Proof.
  split; [discriminate|]. vm_compute. repeat split.
Qed.

Lemma connect_one_request now res wsError s :
  List.length (React.fetches (React.connect now res wsError s))
  = S (List.length (React.fetches s)).
Proof.
  assert (Hlen : List.length (React.fetches s ++ [React.start_session_body s])
                 = S (List.length (React.fetches s)))
    by (rewrite length_app; cbn; lia).
  unfold React.connect. destruct res as [reason|status [reason|data]].
  - exact Hlen.
  - destruct (negb (React.ok status)); exact Hlen.
  - destruct (negb (React.ok status)); [exact Hlen|].
    destruct wsError; exact Hlen.
Qed.

(** ** Teardown *)

Lemma length_update {A} i (f : A -> A) l :
  List.length (React.update i f l) = List.length l.
Proof.
  revert i. induction l as [|x rest IH]; intros [|j]; cbn; try reflexivity.
  rewrite IH. reflexivity.
Qed.

Lemma nth_error_update {A} i (f : A -> A) l j :
  nth_error (React.update i f l) j
  = if Nat.eqb i j then option_map f (nth_error l j) else nth_error l j.
Proof.
  revert i j. induction l as [|x rest IH]; intros [|i] [|j]; cbn;
    try reflexivity.
  - destruct (Nat.eqb i j); reflexivity.
  - apply IH.
Qed.

Lemma disconnect_keeps_capture s :
  React.mediaRecorderRef (React.disconnect s) = React.mediaRecorderRef s
  /\ React.recorders (React.disconnect s) = React.recorders s
  /\ React.isRecording (React.disconnect s) = React.isRecording s.
Proof. unfold React.disconnect. destruct (React.wsRef s); repeat split. Qed.

Lemma cleanup_stops_capture now s :
  React.mediaRecorderRef (React.cleanup now s) = None
  /\ React.isRecording (React.cleanup now s) = false.
Proof.
  unfold React.cleanup, React.stopRecording.
  generalize (React.disconnect s) as s'. intros s'.
  destruct (React.mediaRecorderRef s') eqn:Href; split;
    try reflexivity; exact Href.
Qed.

(** C8, evaluated where the code departs from it. The user connects, the
    socket opens, recording starts, and the disconnect button is pressed:
    [disconnect] closes the socket and drops the reference, but the capture
    handle is still stored, its graph is still connected and its tracks are
    still live, and [isRecording] is still true.  Only the unmount cleanup,
    which calls [stopRecording] after [disconnect], releases them. *)
Theorem disconnect_leaves_capture_running :
  exists s,
    React.run Scenario.disconnect_while_recording React.initial = Some s
    /\ React.wsRef s = None
    /\ React.isConnected s = false
    /\ option_map React.readyState (nth_error (React.sockets s) 0)
       = Some React.CLOSING
    /\ React.mediaRecorderRef s = Some 0
    /\ nth_error (React.recorders s) 0
       = Some {| React.processorConnected := true; React.sourceConnected := true;
                 React.ctxClosed := false; React.tracksLive := true |}
    /\ React.isRecording s = true
    /\ nth_error (React.recorders (React.cleanup "10:00:05" s)) 0
       = Some {| React.processorConnected := false; React.sourceConnected := false;
                 React.ctxClosed := true; React.tracksLive := false |}.
Proof.
  eexists. split; [vm_compute; reflexivity|]. vm_compute. repeat split.
Qed.

(** C9, as the code has it. With no capture active, [stopRecording] throws
    nothing and releases nothing: it sets the recording flag to false and
    appends one system entry to the log, and changes nothing else.  With a
    capture active it releases every part of the capture graph the handle
    designates, leaves every other graph as it was, clears the handle and
    the flag and logs the same entry; a second stop then finds no handle and
    only sets the flag and logs again: the capture resources are released
    once, the log grows at each call. *)
Theorem stopRecording_idle :
  forall now later s,
    (React.mediaRecorderRef s = None ->
     React.stopRecording now s
     = React.set_logs
         (React.slice_last 100 (React.logs s)
            ++ [{| React.time := now; React.type := "system";
                   React.message := "🎤 Enregistrement arrêté" |}])
         (React.set_isRecording false s)
     /\ React.uncaught (React.stopRecording now s) = React.uncaught s
     /\ React.recorders (React.stopRecording now s) = React.recorders s)
    /\ (let s1 := React.stopRecording now s in
        React.mediaRecorderRef s1 = None
        /\ React.isRecording s1 = false
        /\ React.uncaught s1 = React.uncaught s
        /\ React.stopRecording later s1
           = React.set_logs
               (React.slice_last 100 (React.logs s1)
                  ++ [{| React.time := later; React.type := "system";
                         React.message := "🎤 Enregistrement arrêté" |}]) s1
        /\ React.recorders (React.stopRecording later s1) = React.recorders s1)
    /\ (forall r rec,
          React.mediaRecorderRef s = Some r ->
          nth_error (React.recorders s) r = Some rec ->
          let s1 := React.stopRecording now s in
          nth_error (React.recorders s1) r
          = Some {| React.processorConnected := false;
                    React.sourceConnected := false;
                    React.ctxClosed := true; React.tracksLive := false |}
          /\ (forall j, j <> r ->
                        nth_error (React.recorders s1) j
                        = nth_error (React.recorders s) j)
          /\ React.logs s1
             = (React.slice_last 100 (React.logs s)
                  ++ [{| React.time := now; React.type := "system";
                         React.message := "🎤 Enregistrement arrêté" |}])%list).
Proof.
  intros now later s. split; [|split].
  - intros Hidle. unfold React.stopRecording. rewrite Hidle. repeat split.
  - cbn zeta. unfold React.stopRecording.
    destruct (React.mediaRecorderRef s) eqn:Href;
      cbn -[React.slice_last]; rewrite ?Href; repeat split.
  - intros r rec Href Hrec. cbn zeta. unfold React.stopRecording.
    rewrite Href. cbn -[React.slice_last]. split; [|split].
    + rewrite nth_error_update, Nat.eqb_refl, Hrec. reflexivity.
    + intros j Hj. rewrite nth_error_update.
      destruct (Nat.eqb r j) eqn:Hrj; [|reflexivity].
      apply Nat.eqb_eq in Hrj. congruence.
    + reflexivity.
Qed.

Lemma stopRecording_idle_witness :
  React.mediaRecorderRef React.initial = None
  /\ map React.message (React.logs (React.stopRecording "10:00:00" React.initial))
     = ["🎤 Enregistrement arrêté"]
  /\ (let active := React.startRecording "10:00:00" React.MediaResolves
                      React.initial in
      React.mediaRecorderRef active = Some 0
      /\ option_map React.tracksLive (nth_error (React.recorders active) 0)
         = Some true
      /\ option_map React.tracksLive
           (nth_error (React.recorders (React.stopRecording "10:00:01" active)) 0)
         = Some false).
Proof.
  assert (Hidle : React.mediaRecorderRef React.initial = None) by reflexivity.
  split; [exact Hidle|]. split.
  - rewrite (proj1 (proj1 (stopRecording_idle "10:00:00" "10:00:01" React.initial)
                      Hidle)).
    reflexivity.
  - cbn zeta. split; [reflexivity|]. split; [reflexivity|].
    rewrite (proj1 (proj2 (proj2 (stopRecording_idle "10:00:01" "10:00:02"
                                    (React.startRecording "10:00:00"
                                       React.MediaResolves React.initial)))
                      0 _ eq_refl eq_refl)).
    reflexivity.
Defined.

(** C9, as stated, fails: with no capture active, [stopRecording] still
    appends an entry to the event log. *)
Lemma stopRecording_idle_counterexample :
  React.mediaRecorderRef React.initial = None
  /\ React.logs React.initial = []
  /\ React.logs (React.stopRecording "10:00:00" React.initial)
     = [{| React.time := "10:00:00"; React.type := "system";
           React.message := "🎤 Enregistrement arrêté" |}]
  /\ React.stopRecording "10:00:00" React.initial <> React.initial.
Proof.
  repeat split. intros Heq.
  apply (f_equal React.logs) in Heq. discriminate Heq.
Qed.

(** * Further properties of the two clients *)

(** ** Event log bounds *)

Lemma slice_last_length {A} n (l : list A) :
  List.length (React.slice_last n l) = Nat.min n (List.length l).
Proof. unfold React.slice_last. rewrite length_skipn. lia. Qed.

Lemma slice_last_all {A} n (l : list A) :
  List.length l <= n -> React.slice_last n l = l.
Proof.
  intros Hle. unfold React.slice_last.
  replace (List.length l - n) with 0 by lia. reflexivity.
Qed.

Lemma addLog_length now type message s :
  List.length (React.logs (React.addLog now type message s)) <= 101.
Proof.
  cbn [React.addLog React.logs React.set_logs].
  rewrite length_app, slice_last_length. cbn [List.length]. lia.
Qed.

(** [addLog] keeps the newest entries: the result never holds more than 101
    entries, the new entry is the last one, the entries kept are the tail of
    the old log, and nothing is dropped while the old log holds at most 100
    entries. *)
Theorem addLog_window :
  forall now type message s,
    let entry := {| React.time := now; React.type := type;
                    React.message := message |} in
    let logs' := React.logs (React.addLog now type message s) in
    List.length logs' <= 101
    /\ last logs' entry = entry
    /\ (exists dropped kept,
          React.logs s = (dropped ++ kept)%list
          /\ logs' = (kept ++ [entry])%list
          /\ List.length dropped = List.length (React.logs s) - 100)
    /\ (List.length (React.logs s) <= 100 ->
        logs' = (React.logs s ++ [entry])%list).
Proof.
  intros now type message s entry logs'. subst logs'.
  cbn [React.addLog React.logs React.set_logs]. fold entry.
  repeat split.
  - apply (addLog_length now type message s).
  - apply last_last.
  - exists (firstn (List.length (React.logs s) - 100) (React.logs s)),
           (React.slice_last 100 (React.logs s)).
    unfold React.slice_last. rewrite firstn_skipn, length_firstn.
    repeat split. lia.
  - intros Hle. rewrite slice_last_all by exact Hle. reflexivity.
Qed.

Lemma addLog_window_witness :
  List.length (React.logs React.initial) <= 100
  /\ React.logs (React.addLog "10:00:00" "system" "hello" React.initial)
     = [{| React.time := "10:00:00"; React.type := "system";
           React.message := "hello" |}].
Proof.
  assert (Hle : List.length (React.logs React.initial) <= 100) by (cbn; lia).
  split; [exact Hle|].
  exact (proj2 (proj2 (proj2 (addLog_window "10:00:00" "system" "hello"
                                React.initial))) Hle).
Defined.

(** A property kept by every enabled event holds in every reachable state. *)
Lemma run_invariant (P : React.App -> Prop) :
  (forall s e, P s -> React.enabled e s = true -> P (React.handle e s)) ->
  forall events s s', P s -> React.run events s = Some s' -> P s'.
Proof.
  intros Hstep. induction events as [|e rest IH]; intros s s' Hs Hrun.
  - cbn in Hrun. injection Hrun as <-. exact Hs.
  - cbn [React.run] in Hrun. unfold React.step in Hrun.
    destruct (React.enabled e s) eqn:Hen; [|discriminate].
    exact (IH _ _ (Hstep s e Hs Hen) Hrun).
Qed.

Lemma send_only_sockets id data s s' :
  React.send id data s = Some s' ->
  exists ws,
    nth_error (React.sockets s) id = Some ws
    /\ React.readyState ws <> React.CONNECTING
    /\ s' = React.set_sockets
              (React.update id
                 (fun _ => {| React.url := React.url ws;
                              React.readyState := React.readyState ws;
                              React.session := React.session ws;
                              React.sendCalls :=
                                (React.sendCalls ws
                                   ++ [(React.readyState ws, data)])%list;
                              React.closeCalls := React.closeCalls ws |})
                 (React.sockets s)) s.
Proof.
  unfold React.send. intros H.
  destruct (nth_error (React.sockets s) id) as [ws|]; [|discriminate].
  exists ws. unfold React.WebSocket_send in H.
  destruct (React.readyState ws) eqn:Hr; try discriminate;
    injection H as <-; (split; [reflexivity | split; [discriminate | reflexivity]]).
Qed.

Lemma sendText_cases now s :
  React.sendText now s = s
  \/ React.sendText now s = React.throw React.InvalidStateError s
  \/ exists id s',
       React.wsRef s = Some id
       /\ React.trim (React.textInput s) <> ""
       /\ React.send id
            (React.JsonFrame "input.text" (React.trim (React.textInput s))) s
          = Some s'
       /\ React.sendText now s
          = React.set_textInput ""
              (React.addLog now "user"
                 ("📝 " ++ React.trim (React.textInput s)) s').
Proof.
  unfold React.sendText.
  destruct (React.trim (React.textInput s)) as [|c text] eqn:Htext;
    [left; reflexivity|].
  destruct (React.wsRef s) as [id|]; [|left; reflexivity].
  destruct (React.send id _ s) as [s'|] eqn:Hsend.
  - right. right. exists id, s'. repeat split; [discriminate | exact Hsend].
  - right. left. reflexivity.
Qed.

Lemma onaudioprocess_cases float32 s :
  React.onaudioprocess float32 s = s
  \/ React.onaudioprocess float32 s = React.throw React.InvalidStateError s
  \/ exists id s',
       React.wsRef s = Some id
       /\ React.current_readyState s = Some React.OPEN
       /\ React.send id
            (React.BinaryFrame
               (Codec.buffer_of_Int16Array (Codec.encodeFrame float32))) s
          = Some s'
       /\ React.onaudioprocess float32 s = s'.
Proof.
  unfold React.onaudioprocess, React.current_readyState.
  destruct (React.wsRef s) as [id|]; [|left; reflexivity].
  destruct (nth_error (React.sockets s) id) as [ws|]; [|left; reflexivity].
  destruct (React.readyState ws) eqn:Hr; cbn [React.ReadyState_eqb];
    try (left; reflexivity).
  destruct (React.send id _ s) as [s'|] eqn:Hsend.
  - right. right. exists id, s'. cbn [option_map]. rewrite Hr.
    repeat split. exact Hsend.
  - right. left. reflexivity.
Qed.

Ltac logged := right; do 3 eexists; reflexivity.

Lemma stopRecording_logs now s :
  React.logs (React.stopRecording now s)
  = React.logs (React.addLog now "system" "🎤 Enregistrement arrêté" s).
Proof.
  unfold React.stopRecording. destruct (React.mediaRecorderRef s); reflexivity.
Qed.

Lemma disconnect_logs s : React.logs (React.disconnect s) = React.logs s.
Proof. unfold React.disconnect. destruct (React.wsRef s); reflexivity. Qed.

Lemma handle_logs e s :
  React.logs (React.handle e s) = React.logs s
  \/ exists now type message,
       React.logs (React.handle e s)
       = React.logs (React.addLog now type message s).
Proof.
  destruct e as [now res wsError| | |now media|now|value|now|id now|id now data
                |id now|id now|rec float32|now];
    cbn [React.handle].
  - unfold React.connect.
    destruct res as [reason|status [reason|data]];
      [logged | |].
    + destruct (negb (React.ok status)); logged.
    + destruct (negb (React.ok status)); [logged|].
      destruct wsError; [logged | left; reflexivity].
  - left. unfold React.disconnect. destruct (React.wsRef s); reflexivity.
  - left. reflexivity.
  - destruct media; logged.
  - unfold React.stopRecording.
    destruct (React.mediaRecorderRef s); logged.
  - left. reflexivity.
  - destruct (sendText_cases now s) as [->|[->|(i & s' & _ & _ & Hsend & ->)]];
      [left; reflexivity | left; reflexivity |].
    apply send_only_sockets in Hsend as (ws & _ & _ & ->). logged.
  - unfold React.onopen.
    destruct (nth_error _ id) as [[u r [sid|] c k]|];
      [logged | left; reflexivity | left; reflexivity].
  - destruct data as [buffer|msg]; cbn [React.onmessage].
    + left. unfold React.playAudioQueue.
      assert (Hdrain : forall queue s0,
                 React.logs (React.drain queue s0) = React.logs s0).
      { induction queue as [|d rest IH]; intros s0; [reflexivity|].
        cbn [React.drain].
        destruct (Codec.Int16Array_of_buffer d) as [[|z int16]|];
          try reflexivity.
        cbn [Codec.decodeFrame map]. rewrite IH. reflexivity. }
      rewrite Hdrain. destruct (React.audioContextRef _); reflexivity.
    + destruct (react_dispatch_entry now msg s) as [text [-> _]]. logged.
  - unfold React.onerror. logged.
  - unfold React.onclose. logged.
  - destruct (onaudioprocess_cases float32 s)
      as [->|[->|(i & s' & _ & _ & Hsend & ->)]];
      [left; reflexivity | left; reflexivity |].
    apply send_only_sockets in Hsend as (ws & _ & _ & ->). left. reflexivity.
  - unfold React.cleanup. rewrite stopRecording_logs.
    cbn [React.addLog React.logs React.set_logs].
    rewrite disconnect_logs. logged.
Qed.

(** Every event appends at most one entry to the log, so in every state the
    component reaches from its initial state the log holds at most 101
    entries. *)
Theorem logs_bounded :
  forall events s,
    React.run events React.initial = Some s ->
    List.length (React.logs s) <= 101.
Proof.
  intros events s Hrun.
  apply (run_invariant (fun s => List.length (React.logs s) <= 101))
    with (events := events) (s := React.initial); [| cbn; lia | exact Hrun].
  intros s0 e Hs0 _.
  destruct (handle_logs e s0) as [->|(now & type & message & ->)];
    [exact Hs0|].
  apply addLog_length.
Qed.

Lemma logs_bounded_witness :
  exists s,
    React.run Scenario.burst React.initial = Some s
    /\ List.length (React.logs s) <= 101.
Proof.
  eexists. split; [vm_compute; reflexivity|].
  apply (logs_bounded Scenario.burst). vm_compute. reflexivity.
Defined.

(** ** Frames on the wire *)

Lemma byteZ_Zbyte z : Codec.byteZ (Codec.Zbyte z) = (z mod 256)%Z.
Proof.
  unfold Codec.byteZ, Codec.Zbyte.
  pose proof (Z.mod_pos_bound z 256 eq_refl) as Hm.
  destruct (Byte.of_N (Z.to_N (z mod 256))) as [b|] eqn:Hb.
  - apply Byte.to_of_N in Hb. rewrite Hb. apply Z2N.id. lia.
  - apply Byte.of_N_None_iff in Hb. lia.
Qed.

Lemma int16_of_pair_bytes z :
  Codec.int16_of_pair (Codec.Zbyte (z mod 65536))
                      (Codec.Zbyte ((z mod 65536) / 256))
  = Codec.wrap16 z.
Proof.
  unfold Codec.int16_of_pair, Codec.wrap16. rewrite !byteZ_Zbyte.
  pose proof (Z.mod_pos_bound z 65536 eq_refl) as Hm.
  set (m := (z mod 65536)%Z) in *.
  assert (Hhi : ((m / 256) mod 256 = m / 256)%Z).
  { apply Z.mod_small. split; [apply Z.div_pos; lia|].
    apply Z.div_lt_upper_bound; lia. }
  rewrite Hhi.
  assert (Hsplit : (m mod 256 + 256 * (m / 256) = m)%Z).
  { pose proof (Z.div_mod m 256 ltac:(lia)). lia. }
  rewrite Hsplit.
  assert (Hshift : ((z + 32768) mod 65536
                    = if (m <? 32768)%Z then m + 32768 else m - 32768)%Z).
  { subst m. rewrite <- Zplus_mod_idemp_l.
    destruct (z mod 65536 <? 32768)%Z eqn:Hlt.
    - apply Z.ltb_lt in Hlt. apply Z.mod_small. lia.
    - apply Z.ltb_ge in Hlt.
      replace (z mod 65536 + 32768)%Z
        with ((z mod 65536 - 32768) + 1 * 65536)%Z by lia.
      rewrite Z.mod_add by lia. apply Z.mod_small. lia. }
  rewrite Hshift. destruct (m <? 32768)%Z; lia.
Qed.

Lemma view_of_buffer int16 :
  Codec.Int16Array_of_buffer (Codec.buffer_of_Int16Array int16)
  = Some (map Codec.wrap16 int16).
Proof.
  induction int16 as [|z rest IH]; [reflexivity|].
  cbn [Codec.buffer_of_Int16Array Codec.Int16Array_of_buffer map].
  rewrite IH, int16_of_pair_bytes. reflexivity.
Qed.

Lemma encodeSample_wrap x :
  Codec.wrap16 (Codec.encodeSample x) = Codec.encodeSample x.
Proof.
  unfold Codec.encodeSample.
  destruct (Codec.times (Codec.clamp x) 32767) as [| | |q];
    cbn [Codec.ToInt16]; try reflexivity.
  apply wrap16_id, wrap16_range.
Qed.

Lemma view_of_capture_buffer float32 :
  Codec.Int16Array_of_buffer
    (Codec.buffer_of_Int16Array (Codec.encodeFrame float32))
  = Some (Codec.encodeFrame float32).
Proof.
  rewrite view_of_buffer. f_equal. unfold Codec.encodeFrame.
  rewrite map_map. apply map_ext. intros x. apply encodeSample_wrap.
Qed.

(** The buffer the capture path sends holds two bytes per sample, and a
    receiver that views it as an Int16Array reads back exactly the encoded
    samples, whatever the input samples were. *)
Theorem capture_buffer_round_trip :
  forall float32 : list Codec.number,
    let buffer := Codec.buffer_of_Int16Array (Codec.encodeFrame float32) in
    List.length buffer = 2 * List.length float32
    /\ Codec.Int16Array_of_buffer buffer = Some (Codec.encodeFrame float32).
Proof.
  intros float32 buffer. subst buffer. split.
  - unfold Codec.encodeFrame.
    induction float32 as [|x rest IH]; [reflexivity|].
    cbn [map Codec.buffer_of_Int16Array List.length]. rewrite IH. lia.
  - apply view_of_capture_buffer.
Qed.

(** ** Playback of a queue holding several frames *)

Lemma drain_prefix good :
  forall tail s,
    forallb Spec.playable good = true ->
    React.drain (good ++ tail) s
    = React.drain tail
        (React.set_started (React.started s ++ map Spec.samples good)
           (React.set_shifted (React.shifted s ++ good) s)).
Proof.
  induction good as [|data good IH]; intros tail s Hall.
  - cbn [app map]. rewrite !app_nil_r. destruct s; reflexivity.
  - cbn [forallb] in Hall. apply andb_prop in Hall as [Hdata Hgood].
    cbn [app React.drain map]. unfold Spec.playable in Hdata.
    unfold Spec.samples at 1.
    destruct (Codec.Int16Array_of_buffer data) as [[|z int16]|];
      try discriminate.
    cbn [Codec.decodeFrame map]. rewrite IH by exact Hgood.
    f_equal. unfold React.set_started, React.set_shifted.
    cbn [React.started React.shifted React.isConnected React.isRecording
         React.sessionId React.logs React.textInput React.config React.wsRef
         React.mediaRecorderRef React.audioContextRef React.audioQueueRef
         React.sockets React.recorders React.fetches React.uncaught].
    rewrite <- !app_assoc. reflexivity.
Qed.

Lemma drain_bad data rest s :
  Spec.playable data = false ->
  React.drain (data :: rest) s
  = React.set_uncaught (React.uncaught s ++ Shape.playback_error data)
      (React.set_audioQueueRef rest
         (React.set_shifted (React.shifted s ++ [data]) s)).
Proof.
  unfold Spec.playable, Shape.playback_error. cbn [React.drain].
  destruct (Codec.Int16Array_of_buffer data) as [[|z int16]|];
    try discriminate; reflexivity.
Qed.

(** When the queue holds playable frames followed by a frame that cannot be
    played, [playAudioQueue] starts the playable ones in order, takes the
    bad frame off the queue without starting it, raises exactly one error,
    and leaves the frames behind it in the queue. *)
Theorem playAudioQueue_stops_at_bad_frame :
  forall good bad rest s,
    React.audioQueueRef s = (good ++ bad :: rest)%list ->
    forallb Spec.playable good = true ->
    Spec.playable bad = false ->
    let s' := React.playAudioQueue s in
    React.audioQueueRef s' = rest
    /\ React.shifted s' = (React.shifted s ++ good ++ [bad])%list
    /\ React.started s' = (React.started s ++ map Spec.samples good)%list
    /\ React.uncaught s' = (React.uncaught s ++ Shape.playback_error bad)%list
    /\ List.length (Shape.playback_error bad) = 1
    /\ React.audioContextRef s' = true.
Proof.
  intros good bad rest s Hqueue Hgood Hbad s'. subst s'.
  assert (Herr : List.length (Shape.playback_error bad) = 1).
  { unfold Spec.playable in Hbad. unfold Shape.playback_error.
    destruct (Codec.Int16Array_of_buffer bad) as [[|z int16]|];
      try discriminate; reflexivity. }
  unfold React.playAudioQueue.
  destruct (React.audioContextRef s) eqn:Hctx.
  - rewrite Hqueue, drain_prefix by exact Hgood. rewrite drain_bad by exact Hbad.
    cbn. rewrite <- app_assoc. repeat split; [exact Herr | exact Hctx].
  - cbn [React.audioQueueRef React.set_audioContextRef].
    rewrite Hqueue, drain_prefix by exact Hgood. rewrite drain_bad by exact Hbad.
    cbn. rewrite <- app_assoc. repeat split. exact Herr.
Qed.

Lemma playAudioQueue_stops_at_bad_frame_witness :
  let s := React.set_audioQueueRef
             [[Byte.x01; Byte.x00]; [Byte.x07]; [Byte.x02; Byte.x00]]
             React.initial in
  React.audioQueueRef (React.playAudioQueue s) = [[Byte.x02; Byte.x00]]
  /\ React.uncaught (React.playAudioQueue s) = [React.RangeError].
Proof.
  cbn zeta.
  pose proof (playAudioQueue_stops_at_bad_frame
                [[Byte.x01; Byte.x00]] [Byte.x07] [[Byte.x02; Byte.x00]]
                (React.set_audioQueueRef
                   [[Byte.x01; Byte.x00]; [Byte.x07]; [Byte.x02; Byte.x00]]
                   React.initial)
                eq_refl eq_refl eq_refl) as (Hq & _ & _ & Hu & _).
  split; [exact Hq | exact Hu].
Defined.



(** ** Stores and references *)

Lemma forallb_update {A} (P : A -> bool) i (f : A -> A) l :
  forallb P l = true ->
  (forall x, nth_error l i = Some x -> P (f x) = true) ->
  forallb P (React.update i f l) = true.
Proof.
  revert i. induction l as [|x rest IH]; intros [|j] Hall Hf; cbn in *;
    try reflexivity; apply andb_prop in Hall as [Hx Hrest];
    apply andb_true_intro; split; auto.
Qed.

Lemma drain_outside queue : forall s,
  Shape.outside_playback (React.drain queue s) = Shape.outside_playback s.
Proof.
  induction queue as [|data rest IH]; intros s; [reflexivity|].
  cbn [React.drain].
  destruct (Codec.Int16Array_of_buffer data) as [[|z int16]|]; try reflexivity.
  cbn [Codec.decodeFrame map]. rewrite IH. reflexivity.
Qed.

Lemma arrival_outside now buffer s :
  Shape.outside_playback (React.onmessage now (React.ArrayBuffer buffer) s)
  = Shape.outside_playback s.
Proof.
  cbn [React.onmessage]. unfold React.playAudioQueue. rewrite drain_outside.
  destruct (React.audioContextRef _); reflexivity.
Qed.

Lemma dispatch_only_logs now msg s :
  exists entries, React.dispatch now msg s = React.set_logs entries s.
Proof.
  destruct (react_dispatch_entry now msg s) as [text [-> _]].
  eexists. reflexivity.
Qed.

Lemma designates_iff {A} ref (store : list A) :
  Shape.designates ref store = true
  <-> forall i, ref = Some i -> i < List.length store.
Proof.
  unfold Shape.designates. destruct ref as [r|].
  - rewrite Nat.ltb_lt. split.
    + intros Hr i Hi. injection Hi as <-. exact Hr.
    + intros H. apply H. reflexivity.
  - split; [discriminate | reflexivity].
Qed.

Lemma refs_valid_iff s :
  Shape.refs_valid s = true
  <-> (forall i, React.wsRef s = Some i -> i < List.length (React.sockets s))
      /\ (forall i, React.mediaRecorderRef s = Some i ->
                    i < List.length (React.recorders s)).
Proof.
  unfold Shape.refs_valid. rewrite andb_true_iff, !designates_iff. reflexivity.
Qed.

Lemma stopRecording_drops_handle now s :
  React.mediaRecorderRef (React.stopRecording now s) = None.
Proof.
  unfold React.stopRecording.
  destruct (React.mediaRecorderRef s) eqn:Href; [reflexivity | exact Href].
Qed.

Lemma stopRecording_keeps_reference now s :
  React.wsRef (React.stopRecording now s) = React.wsRef s
  /\ React.sockets (React.stopRecording now s) = React.sockets s.
Proof.
  unfold React.stopRecording.
  destruct (React.mediaRecorderRef s); split; reflexivity.
Qed.

Lemma handle_refs_valid e s :
  Shape.refs_valid s = true -> Shape.refs_valid (React.handle e s) = true.
Proof.
  rewrite !refs_valid_iff. intros [Hws Hrec].
  destruct e as [now res wsError| | |now media|now|value|now|id now|id now data
                |id now|id now|rec float32|now];
    cbn [React.handle].
  - unfold React.connect.
    destruct res as [reason|status [reason|data]];
      [split; assumption | |].
    + destruct (negb (React.ok status)); split; assumption.
    + destruct (negb (React.ok status)); [split; assumption|].
      destruct wsError; [split; assumption|].
      split; [|exact Hrec].
      cbn. intros i Hi. injection Hi as <-. rewrite length_app. cbn. lia.
  - split.
    + intros i Hi. rewrite disconnect_drops_reference in Hi. discriminate Hi.
    + destruct (disconnect_keeps_capture s) as (Hm & Hr & _).
      rewrite Hm, Hr. exact Hrec.
  - split; assumption.
  - destruct media; [split; assumption|].
    split; [exact Hws|].
    cbn. intros i Hi. injection Hi as <-. rewrite length_app. cbn. lia.
  - split.
    + destruct (stopRecording_keeps_reference now s) as [Hw Hs].
      rewrite Hw, Hs. exact Hws.
    + intros i Hi. rewrite stopRecording_drops_handle in Hi. discriminate Hi.
  - split; assumption.
  - destruct (sendText_cases now s) as [->|[->|(i & s' & _ & _ & Hsend & ->)]];
      [split; assumption | split; assumption |].
    apply send_only_sockets in Hsend as (ws & _ & _ & ->).
    split; [|exact Hrec]. cbn. rewrite length_update. exact Hws.
  - unfold React.onopen.
    assert (Hlen : forall i, React.wsRef s = Some i ->
                     i < List.length (React.update id (React.set_readyState React.OPEN)
                                        (React.sockets s)))
      by (intros i Hi; rewrite length_update; auto).
    destruct (nth_error _ id) as [[u r [sid|] c k]|]; split; assumption.
  - destruct data as [buffer|msg].
    + pose proof (arrival_outside now buffer s) as Hout.
      unfold Shape.outside_playback in Hout.
      injection Hout as _ _ _ _ _ _ Hw Hm Hs Hr _.
      cbn [React.onmessage] in *. rewrite Hw, Hm, Hs, Hr. split; assumption.
    + cbn [React.onmessage].
      destruct (dispatch_only_logs now msg s) as [entries ->]. split; assumption.
  - split; assumption.
  - split; [|exact Hrec]. cbn. rewrite length_update. exact Hws.
  - destruct (onaudioprocess_cases float32 s)
      as [->|[->|(i & s' & _ & _ & Hsend & ->)]];
      [split; assumption | split; assumption |].
    apply send_only_sockets in Hsend as (ws & _ & _ & ->).
    split; [|exact Hrec]. cbn. rewrite length_update. exact Hws.
  - unfold React.cleanup. split; intros i Hi.
    + rewrite (proj1 (stopRecording_keeps_reference _ _)),
        disconnect_drops_reference in Hi.
      discriminate Hi.
    + rewrite stopRecording_drops_handle in Hi. discriminate Hi.
Qed.

(** In every state the component reaches, [wsRef.current] is null or one of
    the sockets the component created, and [mediaRecorderRef.current] is null
    or one of the capture graphs it created: the handlers never follow a
    dangling reference. *)
Theorem references_never_dangle :
  forall events s,
    React.run events React.initial = Some s ->
    (forall id, React.wsRef s = Some id ->
                exists ws, nth_error (React.sockets s) id = Some ws)
    /\ (forall id, React.mediaRecorderRef s = Some id ->
                   exists rec, nth_error (React.recorders s) id = Some rec).
Proof.
  intros events s Hrun.
  assert (Hvalid : Shape.refs_valid s = true).
  { apply (run_invariant (fun s => Shape.refs_valid s = true))
      with (events := events) (s := React.initial);
      [| reflexivity | exact Hrun].
    intros s0 e Hs0 _. apply handle_refs_valid, Hs0. }
  apply refs_valid_iff in Hvalid as [Hws Hrec].
  split; intros id Hid.
  - destruct (nth_error (React.sockets s) id) as [ws|] eqn:Hnth; [eauto|].
    apply nth_error_None in Hnth. specialize (Hws id Hid). lia.
  - destruct (nth_error (React.recorders s) id) as [rec|] eqn:Hnth; [eauto|].
    apply nth_error_None in Hnth. specialize (Hrec id Hid). lia.
Qed.

Lemma references_never_dangle_witness :
  exists s,
    React.run Scenario.stale_reference React.initial = Some s
    /\ exists ws, nth_error (React.sockets s) 1 = Some ws.
Proof.
  eexists. split; [vm_compute; reflexivity|].
  apply (references_never_dangle Scenario.stale_reference);
    vm_compute; reflexivity.
Defined.

(** ** What the capture path sends *)

Lemma calls_preserved (f : React.WebSocket -> React.WebSocket) i sockets :
  (forall ws, React.sendCalls (f ws) = React.sendCalls ws) ->
  forallb (fun ws => forallb Shape.binary_on_open (React.sendCalls ws)) sockets
  = true ->
  forallb (fun ws => forallb Shape.binary_on_open (React.sendCalls ws))
    (React.update i f sockets) = true.
Proof.
  intros Hf Hall. apply forallb_update; [exact Hall|].
  intros ws Hws. rewrite Hf.
  rewrite forallb_forall in Hall. apply Hall. eapply nth_error_In, Hws.
Qed.

Lemma send_binary_only_on_open id data s s' :
  Shape.binary_only_on_open s = true ->
  React.send id data s = Some s' ->
  (forall ws, nth_error (React.sockets s) id = Some ws ->
              Shape.binary_on_open (React.readyState ws, data) = true) ->
  Shape.binary_only_on_open s' = true.
Proof.
  intros Hinv Hsend Hcall.
  apply send_only_sockets in Hsend as (ws & Hws & _ & ->).
  unfold Shape.binary_only_on_open in *. cbn [React.sockets React.set_sockets].
  apply forallb_update; [exact Hinv|].
  intros ws0 Hws0. cbn [React.sendCalls].
  rewrite forallb_app. apply andb_true_intro. split.
  - rewrite forallb_forall in Hinv. apply Hinv. eapply nth_error_In, Hws.
  - cbn [forallb]. rewrite (Hcall ws Hws). reflexivity.
Qed.

Lemma handle_binary_only_on_open e s :
  Shape.binary_only_on_open s = true ->
  Shape.binary_only_on_open (React.handle e s) = true.
Proof.
  intros Hinv.
  destruct e as [now res wsError| | |now media|now|value|now|id now|id now data
                |id now|id now|rec float32|now];
    cbn [React.handle].
  - unfold React.connect.
    destruct res as [reason|status [reason|data]]; [exact Hinv| |].
    + destruct (negb (React.ok status)); exact Hinv.
    + destruct (negb (React.ok status)); [exact Hinv|].
      destruct wsError; [exact Hinv|].
      unfold Shape.binary_only_on_open in *. cbn.
      rewrite forallb_app, Hinv. reflexivity.
  - unfold React.disconnect, Shape.binary_only_on_open in *.
    destruct (React.wsRef s); [|exact Hinv].
    cbn. apply calls_preserved; [reflexivity | exact Hinv].
  - exact Hinv.
  - destruct media; exact Hinv.
  - unfold Shape.binary_only_on_open.
    rewrite (proj2 (stopRecording_keeps_reference now s)). exact Hinv.
  - exact Hinv.
  - destruct (sendText_cases now s) as [->|[->|(i & s' & _ & _ & Hsend & ->)]];
      [exact Hinv | exact Hinv |].
    apply (send_binary_only_on_open i _ s s' Hinv Hsend). reflexivity.
  - unfold React.onopen.
    assert (Hopen : Shape.binary_only_on_open
                      (React.set_isConnected true
                         (React.set_sockets
                            (React.update id (React.set_readyState React.OPEN)
                               (React.sockets s)) s)) = true).
    { unfold Shape.binary_only_on_open in *. cbn.
      apply calls_preserved; [reflexivity | exact Hinv]. }
    destruct (nth_error _ id) as [[u r [sid|] c k]|]; exact Hopen.
  - destruct data as [buffer|msg].
    + pose proof (arrival_outside now buffer s) as Hout.
      unfold Shape.outside_playback in Hout.
      injection Hout as _ _ _ _ _ _ _ _ Hs _ _.
      unfold Shape.binary_only_on_open. cbn [React.onmessage] in *.
      rewrite Hs. exact Hinv.
    + cbn [React.onmessage].
      destruct (dispatch_only_logs now msg s) as [entries ->]. exact Hinv.
  - exact Hinv.
  - unfold React.onclose, Shape.binary_only_on_open in *. cbn.
    apply calls_preserved; [reflexivity | exact Hinv].
  - destruct (onaudioprocess_cases float32 s)
      as [->|[->|(i & s' & Href & Hopen & Hsend & ->)]];
      [exact Hinv | exact Hinv |].
    apply (send_binary_only_on_open i _ s s' Hinv Hsend).
    intros ws Hws. unfold React.current_readyState in Hopen.
    rewrite Href, Hws in Hopen. cbn in Hopen. injection Hopen as ->.
    reflexivity.
  - unfold React.cleanup, Shape.binary_only_on_open.
    rewrite (proj2 (stopRecording_keeps_reference now _)).
    unfold React.disconnect. destruct (React.wsRef s); [|exact Hinv].
    cbn. apply calls_preserved; [reflexivity | exact Hinv].
Qed.

(** In every state the component reaches, each binary frame that was ever
    passed to [send] was passed while its socket was open: the capture path
    never hands audio to a socket that is connecting, closing or closed, so
    every audio frame it sends is transmitted. *)
Theorem audio_sent_only_when_open :
  forall events s,
    React.run events React.initial = Some s ->
    forall id ws state buffer,
      nth_error (React.sockets s) id = Some ws ->
      In (state, React.BinaryFrame buffer) (React.sendCalls ws) ->
      state = React.OPEN
      /\ In (React.BinaryFrame buffer) (React.transmitted ws).
Proof.
  intros events s Hrun id ws state buffer Hws Hcall.
  assert (Hinv : Shape.binary_only_on_open s = true).
  { apply (run_invariant (fun s => Shape.binary_only_on_open s = true))
      with (events := events) (s := React.initial);
      [| reflexivity | exact Hrun].
    intros s0 e Hs0 _. apply handle_binary_only_on_open, Hs0. }
  unfold Shape.binary_only_on_open in Hinv. rewrite forallb_forall in Hinv.
  specialize (Hinv ws (nth_error_In _ _ Hws)).
  rewrite forallb_forall in Hinv. specialize (Hinv _ Hcall).
  unfold Shape.binary_on_open in Hinv. cbn [fst snd] in Hinv.
  assert (Hstate : state = React.OPEN) by (destruct state; [discriminate | reflexivity | discriminate | discriminate]).
  split; [exact Hstate|]. subst state.
  unfold React.transmitted.
  apply (in_map snd _ (React.OPEN, React.BinaryFrame buffer)).
  apply filter_In. split; [exact Hcall | reflexivity].
Qed.

Lemma audio_sent_only_when_open_witness :
  exists s ws,
    React.run Scenario.talking React.initial = Some s
    /\ nth_error (React.sockets s) 0 = Some ws
    /\ In (React.BinaryFrame [Byte.xff; Byte.x3f; Byte.x01; Byte.xe0])
         (React.transmitted ws).
Proof.
  eexists. eexists. split; [vm_compute; reflexivity|].
  split; [vm_compute; reflexivity|].
  refine (proj2 (audio_sent_only_when_open Scenario.talking _ _ 0 _ React.OPEN
                   _ _ _)).
  - vm_compute. reflexivity.
  - vm_compute. reflexivity.
  - vm_compute. left. reflexivity.
Defined.

(** ** Capture graphs *)


Lemma stopRecording_recorders now s :
  React.recorders (React.stopRecording now s)
  = match React.mediaRecorderRef s with
    | Some r => React.update r React.release (React.recorders s)
    | None => React.recorders s
    end.
Proof.
  unfold React.stopRecording. destruct (React.mediaRecorderRef s); reflexivity.
Qed.


(** The unmount cleanup clears the capture handle and the socket reference,
    resets both flags and logs the stop.  It releases the capture graph the
    handle designated and calls [close] on the socket the reference
    designated, and it touches no other graph and no other socket: a graph
    whose handle was overwritten by a later start stays as it was. *)
Theorem cleanup_releases_referenced_graph :
  forall now s,
    let s' := React.cleanup now s in
    React.mediaRecorderRef s' = None
    /\ React.wsRef s' = None
    /\ React.isRecording s' = false
    /\ React.isConnected s' = false
    /\ React.logs s'
       = React.logs (React.addLog now "system" "🎤 Enregistrement arrêté" s)
    /\ (forall r rec,
          React.mediaRecorderRef s = Some r ->
          nth_error (React.recorders s) r = Some rec ->
          nth_error (React.recorders s') r = Some (React.release rec))
    /\ (forall j,
          React.mediaRecorderRef s <> Some j ->
          nth_error (React.recorders s') j = nth_error (React.recorders s) j)
    /\ (forall id ws,
          React.wsRef s = Some id ->
          nth_error (React.sockets s) id = Some ws ->
          nth_error (React.sockets s') id = Some (React.WebSocket_close ws))
    /\ (forall j,
          React.wsRef s <> Some j ->
          nth_error (React.sockets s') j = nth_error (React.sockets s) j).
Proof.
  intros now s s'. subst s'. unfold React.cleanup.
  destruct (disconnect_keeps_capture s) as (Hm & Hr & Hf).
  destruct (stopRecording_keeps_reference now (React.disconnect s)) as [Hw Hs].
  split; [apply stopRecording_drops_handle|].
  split; [rewrite Hw; apply disconnect_drops_reference|].
  split; [apply cleanup_stops_capture|].
  split.
  { unfold React.stopRecording, React.disconnect.
    destruct (React.mediaRecorderRef _), (React.wsRef s); reflexivity. }
  split.
  { rewrite stopRecording_logs.
    cbn [React.addLog React.logs React.set_logs]. rewrite disconnect_logs.
    reflexivity. }
  split; [|split; [|split]].
  - intros r rec Href Hrec. rewrite stopRecording_recorders, Hm, Hr, Href.
    rewrite nth_error_update, Nat.eqb_refl, Hrec. reflexivity.
  - intros j Hj. rewrite stopRecording_recorders, Hm, Hr.
    destruct (React.mediaRecorderRef s) as [r|]; [|reflexivity].
    rewrite nth_error_update.
    destruct (Nat.eqb r j) eqn:Hrj; [|reflexivity].
    apply Nat.eqb_eq in Hrj. subst j. contradiction Hj. reflexivity.
  - intros id ws Href Hws. rewrite Hs. unfold React.disconnect. rewrite Href.
    cbn. rewrite nth_error_update, Nat.eqb_refl, Hws. reflexivity.
  - intros j Hj. rewrite Hs. unfold React.disconnect.
    destruct (React.wsRef s) as [id|]; [|reflexivity].
    cbn. rewrite nth_error_update.
    destruct (Nat.eqb id j) eqn:Hij; [|reflexivity].
    apply Nat.eqb_eq in Hij. subst j. contradiction Hj. reflexivity.
Qed.

Lemma cleanup_releases_referenced_graph_witness :
  let s := React.startRecording "10:00:03" React.MediaResolves
             (React.startRecording "10:00:02" React.MediaResolves React.initial) in
  option_map Shape.live (nth_error (React.recorders (React.cleanup "10:00:09" s)) 1)
  = Some false
  /\ option_map Shape.live (nth_error (React.recorders (React.cleanup "10:00:09" s)) 0)
     = Some true.
Proof.
  cbn zeta.
  pose proof (cleanup_releases_referenced_graph "10:00:09"
                (React.startRecording "10:00:03" React.MediaResolves
                   (React.startRecording "10:00:02" React.MediaResolves
                      React.initial)))
    as (_ & _ & _ & _ & _ & Hreleased & Hothers & _).
  split.
  - rewrite (Hreleased 1 _ eq_refl eq_refl). reflexivity.
  - rewrite (Hothers 0); [reflexivity | discriminate].
Defined.

(** ** Disconnecting *)

(** [disconnect] is idempotent and silent: a second call changes nothing,
    the log is untouched, and the socket that was referenced has had [close]
    called exactly once. *)
Theorem disconnect_idempotent :
  forall s,
    React.disconnect (React.disconnect s) = React.disconnect s
    /\ React.logs (React.disconnect s) = React.logs s
    /\ React.uncaught (React.disconnect s) = React.uncaught s
    /\ (forall id ws,
          React.wsRef s = Some id ->
          nth_error (React.sockets s) id = Some ws ->
          option_map React.closeCalls
            (nth_error (React.sockets (React.disconnect (React.disconnect s))) id)
          = Some (S (React.closeCalls ws))).
Proof.
  intros s.
  assert (Hidem : React.disconnect (React.disconnect s) = React.disconnect s).
  { unfold React.disconnect at 1. rewrite disconnect_drops_reference.
    unfold React.disconnect. destruct (React.wsRef s); reflexivity. }
  rewrite Hidem. split; [reflexivity|]. split; [apply disconnect_logs|].
  split.
  - unfold React.disconnect. destruct (React.wsRef s); reflexivity.
  - intros id ws Href Hws. unfold React.disconnect. rewrite Href. cbn.
    rewrite nth_error_update, Nat.eqb_refl, Hws. reflexivity.
Qed.

Lemma disconnect_idempotent_witness :
  option_map React.closeCalls
    (nth_error
       (React.sockets
          (React.disconnect
             (React.disconnect
                (React.connect "10:00:00" Scenario.session_ok None React.initial))))
       0)
  = Some 1.
Proof.
  pose proof (proj2 (proj2 (proj2 (disconnect_idempotent
                (React.connect "10:00:00" Scenario.session_ok None
                   React.initial))))
                0
                {| React.url := Some "ws://localhost:8765/ws/abc12345-0000";
                   React.readyState := React.CONNECTING;
                   React.session := Some "abc12345-0000";
                   React.sendCalls := []; React.closeCalls := 0 |}) as H.
  apply H; vm_compute; reflexivity.
Defined.

(** ** Text input *)

(** [trimStart] empties exactly the blank texts, and what it leaves of any
    other text starts with a code point that is not white space. *)
Lemma trimStart_cases n : forall str,
  String.length str <= n ->
  (Shape.blank str = true /\ React.trimStart str = "")
  \/ (Shape.blank str = false /\ React.trimStart str <> ""
      /\ React.trimStart (React.trimStart str) = React.trimStart str).
Proof.
  unfold React.trimStart.
  induction n as [|n IH]; intros str Hlen.
  - destruct str; [left; split; reflexivity | cbn in Hlen; lia].
  - destruct str as [|a rest]; [left; split; reflexivity|].
    cbn [String.length] in Hlen.
    cbn [Shape.blank Unicode.trimStart].
    destruct (Unicode.space1 a) eqn:Ha; [apply IH; lia|].
    destruct rest as [|b rest2].
    { right. split; [reflexivity|]. split; [discriminate|].
      cbn [Unicode.trimStart]. rewrite Ha. reflexivity. }
    cbn [String.length] in Hlen.
    destruct (Unicode.space2 false a b) eqn:Hb; [apply IH; lia|].
    destruct rest2 as [|c rest3].
    { right. split; [reflexivity|]. split; [discriminate|].
      cbn [Unicode.trimStart]. rewrite Ha, Hb. reflexivity. }
    cbn [String.length] in Hlen.
    destruct (Unicode.space3 a b c) eqn:Hc; [apply IH; lia|].
    right. split; [reflexivity|]. split; [discriminate|].
    cbn [Unicode.trimStart]. rewrite Ha, Hb, Hc. reflexivity.
Qed.

Lemma trim_blank str : Shape.blank str = true <-> React.trim str = "".
Proof.
  pose proof (trimStart_cases (String.length str) str (le_n _)) as Hcases.
  unfold React.trim, Unicode.trim, React.trimStart in *.
  set (t := Unicode.trimStart false str) in *.
  destruct Hcases as [[Hb Ht]|(Hb & Hne & Hidem)].
  - split; [|intros _; exact Hb]. intros _. rewrite Ht. reflexivity.
  - split; [congruence|]. intros Htrim. exfalso.
    destruct t as [|a rest]; [congruence|].
    cbn [Unicode.trimEnd] in Htrim. rewrite Hidem in Htrim.
    discriminate Htrim.
Qed.

(** [sendText] does nothing at all when the text input holds only white
    space or when no socket is referenced. *)
Theorem sendText_ignores_blank_input :
  forall now s,
    Shape.blank (React.textInput s) = true \/ React.wsRef s = None ->
    React.sendText now s = s.
Proof.
  intros now s [Hblank|Hnone].
  - apply trim_blank in Hblank. unfold React.sendText. rewrite Hblank.
    reflexivity.
  - apply sendText_without_reference, Hnone.
Qed.

Lemma sendText_ignores_blank_input_witness :
  React.sendText "10:00:05"
    (React.set_textInput "  " (React.onopen 0 "10:00:01"
       (React.connect "10:00:00" Scenario.session_ok None React.initial)))
  = React.set_textInput "  " (React.onopen 0 "10:00:01"
      (React.connect "10:00:00" Scenario.session_ok None React.initial)).
Proof.
  apply sendText_ignores_blank_input. left. reflexivity.
Defined.

(** With a text that is not blank and a referenced socket that is not
    connecting, [sendText] passes one [input.text] message carrying the
    trimmed text to [send], logs the trimmed text as a user entry and empties
    the input; the message is transmitted exactly when the socket is open. *)
Theorem sendText_sends_trimmed_text :
  forall now s id ws,
    Shape.blank (React.textInput s) = false ->
    React.wsRef s = Some id ->
    nth_error (React.sockets s) id = Some ws ->
    React.readyState ws <> React.CONNECTING ->
    let text := React.trim (React.textInput s) in
    let s' := React.sendText now s in
    text <> ""
    /\ option_map React.sendCalls (nth_error (React.sockets s') id)
       = Some (React.sendCalls ws
                 ++ [(React.readyState ws, React.JsonFrame "input.text" text)])%list
    /\ React.logs s' = React.logs (React.addLog now "user" ("📝 " ++ text) s)
    /\ React.textInput s' = ""
    /\ React.uncaught s' = React.uncaught s.
Proof.
  intros now s id ws Hblank Href Hws Hready text s'. subst text s'.
  assert (Htext : React.trim (React.textInput s) <> "").
  { intros H. apply trim_blank in H. congruence. }
  split; [exact Htext|].
  unfold React.sendText. rewrite Href.
  destruct (React.trim (React.textInput s)) as [|c text] eqn:Ht;
    [contradiction|].
  unfold React.send, React.WebSocket_send. rewrite Hws.
  destruct (React.readyState ws) eqn:Hr; [contradiction | | |];
    cbn; rewrite nth_error_update, Nat.eqb_refl, Hws; repeat split.
Qed.

Lemma sendText_sends_trimmed_text_witness :
  React.textInput
    (React.sendText "10:00:05"
       (React.set_textInput " Bonjour " (React.onopen 0 "10:00:01"
          (React.connect "10:00:00" Scenario.session_ok None React.initial))))
  = "".
Proof.
  refine (proj1 (proj2 (proj2 (proj2
            (sendText_sends_trimmed_text "10:00:05"
               (React.set_textInput " Bonjour " (React.onopen 0 "10:00:01"
                  (React.connect "10:00:00" Scenario.session_ok None
                     React.initial)))
               0 _ _ _ _ _))))).
  - reflexivity.
  - reflexivity.
  - vm_compute. reflexivity.
  - vm_compute. discriminate.
Defined.

(** While the referenced socket is still connecting, [sendText] with a text
    that is not blank raises InvalidStateError out of the handler: nothing is
    sent or logged and the text stays in the input. *)
Theorem sendText_while_connecting_throws :
  forall now s id ws,
    Shape.blank (React.textInput s) = false ->
    React.wsRef s = Some id ->
    nth_error (React.sockets s) id = Some ws ->
    React.readyState ws = React.CONNECTING ->
    React.sendText now s
    = React.set_uncaught (React.uncaught s ++ [React.InvalidStateError]) s.
Proof.
  intros now s id ws Hblank Href Hws Hready.
  assert (Htext : React.trim (React.textInput s) <> "").
  { intros H. apply trim_blank in H. congruence. }
  unfold React.sendText. rewrite Href.
  destruct (React.trim (React.textInput s)) as [|c text]; [contradiction|].
  unfold React.send, React.WebSocket_send. rewrite Hws, Hready. reflexivity.
Qed.

Lemma sendText_while_connecting_throws_witness :
  React.uncaught
    (React.sendText "10:00:05"
       (React.set_textInput "Bonjour"
          (React.connect "10:00:00" Scenario.session_ok None React.initial)))
  = [React.InvalidStateError].
Proof.
  rewrite (sendText_while_connecting_throws "10:00:05"
             (React.set_textInput "Bonjour"
                (React.connect "10:00:00" Scenario.session_ok None React.initial))
             0 _ eq_refl eq_refl eq_refl eq_refl).
  reflexivity.
Defined.

(** ** Connecting *)

(** [connect] never touches the sockets that already exist, not even the one
    it stops referencing, and never changes the connection flag.  Either it
    fails, with one error entry starting with the failure prefix and the
    reference unchanged, or the handshake had a 2xx status and a body, and
    one new socket in the CONNECTING state is appended and referenced without
    any log entry. *)
Theorem connect_outcomes :
  forall now res wsError s,
    let s' := React.connect now res wsError s in
    React.isConnected s' = React.isConnected s
    /\ ((React.sockets s' = React.sockets s
         /\ React.wsRef s' = React.wsRef s
         /\ exists reason,
              React.logs s'
              = React.logs (React.addLog now "error"
                              ("Connexion échouée: " ++ reason) s))
        \/ (exists status data,
              res = React.FetchResolves status (React.JsonResolves data)
              /\ React.ok status = true
              /\ wsError = None
              /\ React.sockets s'
                 = (React.sockets s
                      ++ [{| React.url := React.websocket_url data;
                             React.readyState := React.CONNECTING;
                             React.session := React.session_id data;
                             React.sendCalls := [];
                             React.closeCalls := 0 |}])%list
              /\ React.wsRef s' = Some (List.length (React.sockets s))
              /\ React.sessionId s' = React.session_id data
              /\ React.logs s' = React.logs s)).
Proof.
  intros now res wsError s s'. subst s'. unfold React.connect.
  destruct res as [reason|status [reason|data]].
  - split; [reflexivity|]. left. repeat split. eexists. reflexivity.
  - destruct (React.ok status); cbn [negb];
      (split; [reflexivity|]); left; repeat split; eexists; reflexivity.
  - destruct (React.ok status) eqn:Hok; cbn [negb].
    + destruct wsError as [reason|].
      * split; [reflexivity|]. left. repeat split. eexists. reflexivity.
      * split; [reflexivity|]. right. exists status, data.
        rewrite Hok. repeat split.
    + split; [reflexivity|]. left. repeat split. eexists. reflexivity.
Qed.

Lemma nth_error_appended {A} (l : list A) x :
  nth_error (l ++ [x]) (List.length l) = Some x.
Proof. rewrite nth_error_app2, Nat.sub_diag by lia. reflexivity. Qed.

(** When a successful handshake is followed by the opening of its socket,
    the connection flag becomes true in every case; with a session id in the
    handshake body one system entry shows its first eight UTF-16 code units,
    which for an id of one-byte characters are its first eight characters,
    and with the session id missing from the body nothing is logged and a
    TypeError escapes the [onopen] handler. *)
Theorem open_after_handshake :
  forall now later status url sid s,
    React.ok status = true ->
    let s1 := React.connect now
                (React.FetchResolves status
                   (React.JsonResolves {| React.session_id := sid;
                                          React.websocket_url := url |}))
                None s in
    let s2 := React.onopen (List.length (React.sockets s)) later s1 in
    React.isConnected s2 = true
    /\ option_map React.readyState
         (nth_error (React.sockets s2) (List.length (React.sockets s)))
       = Some React.OPEN
    /\ match sid with
       | Some id =>
           React.logs s2
           = React.logs (React.addLog later "system"
                           ("Connecté — session: " ++ React.slice_0_8 id ++ "...") s)
           /\ React.uncaught s2 = React.uncaught s
       | None =>
           React.logs s2 = React.logs s
           /\ React.uncaught s2 = (React.uncaught s ++ [React.TypeError])%list
       end.
Proof.
  intros now later status url sid s Hok s1 s2. subst s1 s2.
  unfold React.connect. rewrite Hok. cbn [negb].
  unfold React.onopen.
  cbn [React.sockets React.set_sockets React.set_wsRef React.set_sessionId
       React.set_fetches React.set_isConnected React.session_id
       React.websocket_url].
  rewrite nth_error_update, Nat.eqb_refl, nth_error_appended.
  cbn [option_map React.set_readyState React.session].
  destruct sid as [id|]; cbn -[React.slice_0_8];
    rewrite nth_error_update, Nat.eqb_refl, nth_error_appended;
    repeat split.
Qed.

Lemma open_after_handshake_witness :
  React.ok 200 = true
  /\ React.uncaught
       (React.onopen 0 "10:00:01"
          (React.connect "10:00:00"
             (React.FetchResolves 200
                (React.JsonResolves
                   {| React.session_id := None;
                      React.websocket_url := Some "ws://localhost:8765/ws" |}))
             None React.initial))
     = [React.TypeError].
Proof.
  assert (Hok : React.ok 200 = true) by reflexivity.
  split; [exact Hok|].
  exact (proj2 (proj2 (proj2 (open_after_handshake "10:00:00" "10:00:01" 200
                                (Some "ws://localhost:8765/ws") None
                                React.initial Hok)))).
Defined.

(** ** The playback context *)

Lemma drain_audioContext queue : forall s,
  React.audioContextRef (React.drain queue s) = React.audioContextRef s.
Proof.
  induction queue as [|data rest IH]; intros s; [reflexivity|].
  cbn [React.drain].
  destruct (Codec.Int16Array_of_buffer data) as [[|z int16]|]; try reflexivity.
  cbn [Codec.decodeFrame map]. rewrite IH. reflexivity.
Qed.

Lemma handle_audioContext e s :
  React.audioContextRef (React.handle e s)
  = (React.audioContextRef s
     || match Spec.arrivals [e] with [] => false | _ :: _ => true end).
Proof.
  destruct e as [now res wsError| | |now media|now|value|now|id now|id now data
                |id now|id now|rec float32|now];
    cbn [React.handle Spec.arrivals]; rewrite ?orb_false_r.
  - unfold React.connect. destruct res as [reason|status [reason|data]];
      [reflexivity | |].
    + destruct (negb (React.ok status)); reflexivity.
    + destruct (negb (React.ok status)); [reflexivity|].
      destruct wsError; reflexivity.
  - unfold React.disconnect. destruct (React.wsRef s); reflexivity.
  - reflexivity.
  - destruct media; reflexivity.
  - unfold React.stopRecording. destruct (React.mediaRecorderRef s); reflexivity.
  - reflexivity.
  - destruct (sendText_cases now s) as [->|[->|(i & s' & _ & _ & Hsend & ->)]];
      [reflexivity | reflexivity |].
    apply send_only_sockets in Hsend as (ws & _ & _ & ->). reflexivity.
  - unfold React.onopen.
    destruct (nth_error _ id) as [[u r [sid|] c k]|]; reflexivity.
  - destruct data as [buffer|msg]; cbn [React.onmessage].
    + unfold React.playAudioQueue. rewrite drain_audioContext.
      cbn [React.audioContextRef React.set_audioQueueRef].
      destruct (React.audioContextRef s) eqn:Hctx; cbn; rewrite ?Hctx;
        reflexivity.
    + rewrite orb_false_r.
      destruct (dispatch_only_logs now msg s) as [entries ->]. reflexivity.
  - reflexivity.
  - reflexivity.
  - destruct (onaudioprocess_cases float32 s)
      as [->|[->|(i & s' & _ & _ & Hsend & ->)]];
      [reflexivity | reflexivity |].
    apply send_only_sockets in Hsend as (ws & _ & _ & ->). reflexivity.
  - unfold React.cleanup, React.stopRecording, React.disconnect.
    destruct (React.wsRef s), (React.mediaRecorderRef _); reflexivity.
Qed.

Lemma arrivals_cons e rest :
  Spec.arrivals (e :: rest) = (Spec.arrivals [e] ++ Spec.arrivals rest)%list.
Proof.
  destruct e; try reflexivity. destruct data; reflexivity.
Qed.

Lemma run_audioContext events : forall s s',
  React.run events s = Some s' ->
  React.audioContextRef s'
  = (React.audioContextRef s
     || match Spec.arrivals events with [] => false | _ :: _ => true end).
Proof.
  induction events as [|e rest IH]; intros s s' Hrun.
  - cbn in Hrun. injection Hrun as <-. cbn. rewrite orb_false_r. reflexivity.
  - cbn [React.run] in Hrun. unfold React.step in Hrun.
    destruct (React.enabled e s); [|discriminate].
    rewrite (arrivals_cons e rest), (IH _ _ Hrun), handle_audioContext.
    generalize (Spec.arrivals [e]), (Spec.arrivals rest),
      (React.audioContextRef s).
    intros [|a l] [|b m] []; reflexivity.
Qed.

(** The playback context is created lazily: in every reachable state it
    exists exactly when at least one binary frame has arrived, whatever else
    happened. *)
Theorem audio_context_created_on_first_frame :
  forall events s,
    React.run events React.initial = Some s ->
    (React.audioContextRef s = true <-> Spec.arrivals events <> []).
Proof.
  intros events s Hrun. rewrite (run_audioContext _ _ _ Hrun). cbn.
  destruct (Spec.arrivals events); split; congruence.
Qed.

Lemma audio_context_created_on_first_frame_witness :
  exists s,
    React.run Scenario.talking React.initial = Some s
    /\ React.audioContextRef s = false.
Proof.
  destruct (React.run Scenario.talking React.initial) as [s|] eqn:Hrun;
    [| vm_compute in Hrun; discriminate Hrun].
  exists s. split; [reflexivity|].
  destruct (audio_context_created_on_first_frame Scenario.talking s Hrun)
    as [Hto _].
  destruct (React.audioContextRef s); [|reflexivity].
  exfalso. apply (Hto eq_refl). reflexivity.
Defined.

(** ** The Flutter screen *)

Lemma _addLog_length now type message d :
  List.length (Flutter._logs d) <= 100 ->
  List.length (Flutter._logs (Flutter._addLog now type message d)) <= 100.
Proof.
  intros Hle. unfold Flutter._addLog. cbn [Flutter._logs Flutter.set_logs].
  rewrite length_app. cbn [List.length].
  destruct (Nat.ltb 100 (List.length (Flutter._logs d) + 1)) eqn:Hfull.
  - destruct (Flutter._logs d ++ _)%list eqn:Hadded; [cbn; lia|].
    apply (f_equal (@List.length _)) in Hadded.
    rewrite length_app in Hadded. cbn in Hadded. cbn [tl]. lia.
  - apply Nat.ltb_ge in Hfull. rewrite length_app. cbn. lia.
Qed.

Lemma _connect_logs toString now post channelError d :
  Flutter._logs (Flutter._connect toString now post channelError d)
  = Flutter._logs d
  \/ exists type message,
       Flutter._logs (Flutter._connect toString now post channelError d)
       = Flutter._logs (Flutter._addLog now type message d).
Proof.
  unfold Flutter._connect.
  destruct post as [e|statusCode [e|sid]];
    [right; do 2 eexists; reflexivity | |].
  - destruct (negb (Nat.eqb statusCode 200)); right; do 2 eexists; reflexivity.
  - destruct (negb (Nat.eqb statusCode 200)); [right; do 2 eexists; reflexivity|].
    destruct channelError; [right; do 2 eexists; reflexivity|].
    destruct sid as [id|]; [|right; do 2 eexists; reflexivity].
    destruct (Nat.ltb (Unicode.code_units id) 8); right; do 2 eexists; reflexivity.
Qed.

Lemma screen_logs toString e s :
  Flutter._logs (FlutterScreen.core (FlutterScreen.handle toString e s))
  = Flutter._logs (FlutterScreen.core s)
  \/ exists now type message,
       Flutter._logs (FlutterScreen.core (FlutterScreen.handle toString e s))
       = Flutter._logs (Flutter._addLog now type message (FlutterScreen.core s)).
Proof.
  destruct e as [now post channelError|now| |value|now frame|now|now error];
    cbn [FlutterScreen.handle].
  - cbn [FlutterScreen.on_core FlutterScreen.core].
    destruct (_connect_logs toString now post channelError (FlutterScreen.core s))
      as [->|(type & message & ->)];
      [left; reflexivity | right; do 3 eexists; reflexivity].
  - unfold FlutterScreen._sendText.
    destruct (FlutterScreen.trim _); [left; reflexivity|].
    destruct (Flutter._channel _); [right; do 3 eexists; reflexivity | left; reflexivity].
  - left. unfold FlutterScreen._disconnect. cbn.
    destruct (Flutter._channel _); reflexivity.
  - left. reflexivity.
  - right. destruct frame as [msg|bytes]; cbn.
    + destruct (flutter_dispatch_entry now msg (FlutterScreen.core s))
        as [text [-> _]]. do 3 eexists. reflexivity.
    + do 3 eexists. reflexivity.
  - right. do 3 eexists. reflexivity.
  - right. do 3 eexists. reflexivity.
Qed.

(** Whatever the Flutter screen goes through, its log never holds more than
    100 entries: each handler adds at most one entry and [_addLog] drops the
    oldest entry once the list would exceed 100. *)
Theorem flutter_logs_bounded :
  forall toString events,
    List.length
      (Flutter._logs
         (FlutterScreen.core
            (FlutterScreen.play toString events FlutterScreen.initial)))
    <= 100.
Proof.
  intros toString events.
  assert (Hgen : forall s,
             List.length (Flutter._logs (FlutterScreen.core s)) <= 100 ->
             List.length
               (Flutter._logs
                  (FlutterScreen.core (FlutterScreen.play toString events s)))
             <= 100).
  { induction events as [|e rest IH]; intros s Hs; [exact Hs|].
    cbn [FlutterScreen.play fold_left]. apply IH.
    destruct (screen_logs toString e s) as [->|(now & type & message & ->)];
      [exact Hs | apply _addLog_length, Hs]. }
  apply Hgen. cbn. lia.
Qed.

(** When the log already holds 100 entries, [_addLog] drops the oldest one
    and appends the new one; below 100 it only appends. *)
Theorem flutter_addLog_window :
  forall now type message d,
    let entry := {| Flutter.time := now; Flutter.type := type;
                    Flutter.message := message |} in
    (List.length (Flutter._logs d) < 100 ->
     Flutter._logs (Flutter._addLog now type message d)
     = (Flutter._logs d ++ [entry])%list)
    /\ (List.length (Flutter._logs d) = 100 ->
        Flutter._logs (Flutter._addLog now type message d)
        = (tl (Flutter._logs d) ++ [entry])%list
        /\ List.length (Flutter._logs (Flutter._addLog now type message d)) = 100).
Proof.
  intros now type message d entry. subst entry.
  unfold Flutter._addLog. cbn [Flutter._logs Flutter.set_logs].
  rewrite length_app. cbn [List.length]. split; intros Hlen.
  - replace (Nat.ltb 100 (List.length (Flutter._logs d) + 1)) with false
      by (symmetry; apply Nat.ltb_ge; lia).
    reflexivity.
  - replace (Nat.ltb 100 (List.length (Flutter._logs d) + 1)) with true
      by (symmetry; apply Nat.ltb_lt; lia).
    destruct (Flutter._logs d) as [|oldest kept]; [discriminate Hlen|].
    cbn [tl app]. split; [reflexivity|].
    rewrite length_app. cbn in *. lia.
Qed.

Lemma flutter_addLog_window_witness :
  List.length (Flutter._logs Flutter.initial) < 100
  /\ Flutter._logs (Flutter._addLog "10:00" "system" "hello" Flutter.initial)
     = [{| Flutter.time := "10:00"; Flutter.type := "system";
           Flutter.message := "hello" |}].
Proof.
  assert (Hlt : List.length (Flutter._logs Flutter.initial) < 100) by (cbn; lia).
  split; [exact Hlt|].
  exact (proj1 (flutter_addLog_window "10:00" "system" "hello" Flutter.initial) Hlt).
Defined.




Lemma _connect_channel_open toString now post channelError s :
  FlutterScreen.channel_open s = true ->
  FlutterScreen.channel_open
    (FlutterScreen.on_core (Flutter._connect toString now post channelError) s)
  = true.
Proof.
  intros Hopen. unfold FlutterScreen.channel_open in *.
  cbn [FlutterScreen.on_core FlutterScreen.core]. unfold Flutter._connect.
  destruct post as [e|statusCode [e|sid]]; [exact Hopen | |].
  - destruct (negb (Nat.eqb statusCode 200)); exact Hopen.
  - destruct (negb (Nat.eqb statusCode 200)); [exact Hopen|].
    destruct channelError; [exact Hopen|].
    destruct sid as [id|];
      [destruct (Nat.ltb (Unicode.code_units id) 8)|];
      cbn; rewrite nth_error_appended; reflexivity.
Qed.

Lemma screen_channel_open toString e s :
  FlutterScreen.channel_open s = true ->
  FlutterScreen.channel_open (FlutterScreen.handle toString e s) = true
  /\ exists added,
       FlutterScreen.sinkAdds (FlutterScreen.handle toString e s)
       = (FlutterScreen.sinkAdds s ++ added)%list
       /\ forallb (fun call => negb (snd (fst call))) added = true.
Proof.
  intros Hopen.
  destruct e as [now post channelError|now| |value|now frame|now|now error];
    cbn [FlutterScreen.handle].
  - split; [apply _connect_channel_open, Hopen|].
    exists []. rewrite app_nil_r. split; reflexivity.
  - unfold FlutterScreen._sendText.
    destruct (FlutterScreen.trim _) as [|c text];
      [split; [exact Hopen | exists []; rewrite app_nil_r; split; reflexivity]|].
    unfold FlutterScreen.channel_open in Hopen.
    destruct (Flutter._channel (FlutterScreen.core s)) as [id|] eqn:Hch;
      [|split; [unfold FlutterScreen.channel_open; rewrite Hch; reflexivity
               | exists []; rewrite app_nil_r; split; reflexivity]].
    destruct (nth_error (Flutter.channels (FlutterScreen.core s)) id)
      as [ch|] eqn:Hnth; [|discriminate].
    split.
    + unfold FlutterScreen.channel_open. cbn. rewrite Hch, Hnth. exact Hopen.
    + eexists. split; [reflexivity|]. cbn. rewrite Hopen. reflexivity.
  - split; [|exists []; rewrite app_nil_r; split; reflexivity].
    unfold FlutterScreen.channel_open, FlutterScreen._disconnect. cbn.
    destruct (Flutter._channel (FlutterScreen.core s)); reflexivity.
  - split; [exact Hopen | exists []; rewrite app_nil_r; split; reflexivity].
  - split; [|exists []; rewrite app_nil_r; split; reflexivity].
    unfold FlutterScreen.channel_open in *. destruct frame as [msg|bytes]; cbn.
    + destruct (flutter_dispatch_entry now msg (FlutterScreen.core s))
        as [text [-> _]]. exact Hopen.
    + exact Hopen.
  - split; [exact Hopen | exists []; rewrite app_nil_r; split; reflexivity].
  - split; [exact Hopen | exists []; rewrite app_nil_r; split; reflexivity].
Qed.

(** Whatever the Flutter screen goes through, [sink.add] is never called on
    a sink that [_disconnect] has closed: the only handler that closes a sink
    also clears the channel reference, and [_sendText] adds only through the
    reference. *)
Theorem flutter_never_adds_to_closed_sink :
  forall toString events id closed text,
    In (id, closed, text)
       (FlutterScreen.sinkAdds
          (FlutterScreen.play toString events FlutterScreen.initial)) ->
    closed = false.
Proof.
  intros toString events id closed text.
  assert (Hgen : forall s,
             FlutterScreen.channel_open s = true ->
             forallb (fun call => negb (snd (fst call)))
               (FlutterScreen.sinkAdds s) = true ->
             forallb (fun call => negb (snd (fst call)))
               (FlutterScreen.sinkAdds (FlutterScreen.play toString events s))
             = true).
  { induction events as [|e rest IH]; intros s Hopen Hadds; [exact Hadds|].
    cbn [FlutterScreen.play fold_left].
    destruct (screen_channel_open toString e s Hopen)
      as [Hopen' (added & Heq & Hadded)].
    apply IH; [exact Hopen'|].
    rewrite Heq, forallb_app, Hadds, Hadded. reflexivity. }
  intros Hin. specialize (Hgen FlutterScreen.initial eq_refl eq_refl).
  rewrite forallb_forall in Hgen. specialize (Hgen _ Hin).
  cbn in Hgen. destruct closed; [discriminate | reflexivity].
Qed.

(** The Flutter [_disconnect] is idempotent and silent, closes the sink of
    the referenced channel, and leaves the screen in a state where
    [_sendText] does nothing. *)
Theorem flutter_disconnect_idempotent :
  forall now s,
    let s' := FlutterScreen._disconnect s in
    FlutterScreen._disconnect s' = s'
    /\ FlutterScreen._sendText now s' = s'
    /\ Flutter._logs (FlutterScreen.core s') = Flutter._logs (FlutterScreen.core s)
    /\ Flutter._channel (FlutterScreen.core s') = None
    /\ Flutter._isConnected (FlutterScreen.core s') = false
    /\ Flutter._sessionId (FlutterScreen.core s') = None
    /\ (forall id ch,
          Flutter._channel (FlutterScreen.core s) = Some id ->
          nth_error (Flutter.channels (FlutterScreen.core s)) id = Some ch ->
          option_map Flutter.sinkClosed
            (nth_error (Flutter.channels (FlutterScreen.core s')) id)
          = Some true).
Proof.
  intros now s s'. subst s'.
  assert (Hnone : Flutter._channel
                    (FlutterScreen.core (FlutterScreen._disconnect s)) = None).
  { unfold FlutterScreen._disconnect. cbn.
    destruct (Flutter._channel (FlutterScreen.core s)); reflexivity. }
  split; [|split; [|split; [|split; [exact Hnone|split; [|split]]]]].
  - unfold FlutterScreen._disconnect, FlutterScreen.on_core. cbn.
    destruct (Flutter._channel (FlutterScreen.core s)); reflexivity.
  - unfold FlutterScreen._sendText. rewrite Hnone.
    destruct (FlutterScreen.trim _); reflexivity.
  - unfold FlutterScreen._disconnect. cbn.
    destruct (Flutter._channel (FlutterScreen.core s)); reflexivity.
  - unfold FlutterScreen._disconnect. cbn.
    destruct (Flutter._channel (FlutterScreen.core s)); reflexivity.
  - unfold FlutterScreen._disconnect. cbn.
    destruct (Flutter._channel (FlutterScreen.core s)); reflexivity.
  - intros id ch Hch Hnth. unfold FlutterScreen._disconnect. cbn.
    rewrite Hch. cbn. rewrite nth_error_update, Nat.eqb_refl, Hnth. reflexivity.
Qed.

Lemma flutter_never_adds_to_closed_sink_witness :
  In (0, false, "Bonjour")
     (FlutterScreen.sinkAdds
        (FlutterScreen.play (fun _ => "") FlutterScenario.flutter_chat
           FlutterScreen.initial))
  /\ false = false.
Proof.
  assert (Hin : In (0, false, "Bonjour")
                  (FlutterScreen.sinkAdds
                     (FlutterScreen.play (fun _ => "") FlutterScenario.flutter_chat
                        FlutterScreen.initial)))
    by (vm_compute; left; reflexivity).
  split; [exact Hin|].
  exact (flutter_never_adds_to_closed_sink _ _ _ _ _ Hin).
Defined.

Lemma flutter_disconnect_idempotent_witness :
  option_map Flutter.sinkClosed
    (nth_error
       (Flutter.channels
          (FlutterScreen.core
             (FlutterScreen._disconnect
                (FlutterScreen.play (fun _ => "") FlutterScenario.flutter_chat
                   FlutterScreen.initial))))
       0)
  = Some true.
Proof.
  pose proof (proj2 (proj2 (proj2 (proj2 (proj2 (proj2
                (flutter_disconnect_idempotent "10:02"
                   (FlutterScreen.play (fun _ => "") FlutterScenario.flutter_chat
                      FlutterScreen.initial)))))))
                0
                {| Flutter.uri := "ws://localhost:8765/ws/abc12345-0000";
                   Flutter.sinkClosed := false |}) as H.
  apply H; vm_compute; reflexivity.
Defined.
